(** * trod: column expressions, field declarations and key declarations

    A shallow embedding of [trod/types_/field.py] and [trod/types/index.py].

    Python values are embedded as the inductive type [pyval]; a raised
    exception is a value of [exn]; a call that may raise returns a
    [result]; the two class-level counters and the warnings emitted by
    constructors live in an explicit [World] that is threaded through
    the constructors. *)

From Stdlib Require Import ZArith List String Ascii Bool Lia Sorted.
From Stdlib Require Import DecimalString.
Import ListNotations.

Open Scope string_scope.
Open Scope Z_scope.

(* ================================================================== *)
(** * Python values and their text *)
(* ================================================================== *)

Module Py.

(** The values the modelled code handles: [None], booleans, unbounded
    integers, strings (sequences of code points below 256), tuples, lists,
    slice objects and column objects.  A column object is kept as its class
    name (used by [Column.__repr__]) and its [name] attribute.  Floats and
    expression objects used as plain operands are outside the universe. *)
#[warnings="-register-all"]
Inductive pyval : Type :=
| PNone
| PBool (b : bool)
| PInt (z : Z)
| PStr (s : string)
| PTuple (items : list pyval)
| PList (items : list pyval)
| PSlice (start stop step : pyval)
| PColumn (cls : string) (name : pyval).

(** Exceptions raised by the modelled code, with their message. *)
Inductive exn : Type :=
| ValueError (msg : string)
| TypeError (msg : string)
| AttributeError (msg : string)
| NameError (msg : string)
| KeyError (msg : string)
| NotImplementedError.

Inductive result (A : Type) : Type :=
| Ok (a : A)
| Raise (e : exn).
Arguments Ok {A} a.
Arguments Raise {A} e.

Definition bind {A B} (r : result A) (k : A -> result B) : result B :=
  match r with
  | Ok a => k a
  | Raise e => Raise e
  end.

Notation "'let?' x ':=' c 'in' k" := (bind c (fun x => k))
  (at level 10, x pattern, c at level 100, k at level 200).

(** [sep.join(parts)] *)
Fixpoint join (sep : string) (parts : list string) : string :=
  match parts with
  | [] => ""
  | [p] => p
  | p :: rest => p ++ sep ++ join sep rest
  end.

Definition str_of_Z (z : Z) : string := NilZero.string_of_int (Z.to_int z).

Definition hex_digit (n : nat) : ascii :=
  match n with
  | 0 => "0" | 1 => "1" | 2 => "2" | 3 => "3" | 4 => "4" | 5 => "5"
  | 6 => "6" | 7 => "7" | 8 => "8" | 9 => "9" | 10 => "a" | 11 => "b"
  | 12 => "c" | 13 => "d" | 14 => "e" | _ => "f"
  end%nat%char.

Definition contains_char (c : ascii) (s : string) : bool :=
  existsb (Ascii.eqb c) (list_ascii_of_string s).

(** The quote [repr] puts around a string: a double quote exactly when the
    string holds a single quote and no double quote. *)
Definition double_quote : ascii := ascii_of_nat 34.

Definition repr_quote (s : string) : ascii :=
  if contains_char "'" s && negb (contains_char double_quote s)
  then double_quote else "'"%char.

(** Code points that [repr] prints as they are. *)
Definition printable (n : nat) : bool :=
  ((32 <=? n) && (n <? 127) || (161 <=? n) && negb (n =? 173))%nat.

Definition repr_char (q c : ascii) : string :=
  let n := nat_of_ascii c in
  if Ascii.eqb c q || Ascii.eqb c "\" then String "\" (String c "")
  else if (n =? 9)%nat then "\t"
  else if (n =? 10)%nat then "\n"
  else if (n =? 13)%nat then "\r"
  else if printable n then String c ""
  else String "\" (String "x"
         (String (hex_digit (n / 16)) (String (hex_digit (n mod 16)) ""))).

Definition repr_str (s : string) : string :=
  let q := repr_quote s in
  String q (concat "" (map (repr_char q) (list_ascii_of_string s))
            ++ String q "").

(** [py_text false v] is [str(v)] (which is also what an f-string and
    [str.format] insert for these values); [py_text true v] is [repr(v)].
    The two differ on strings only; the items of a container are always
    shown by [repr]. *)
Fixpoint py_text (r : bool) (v : pyval) {struct v} : string :=
  match v with
  | PNone => "None"
  | PBool true => "True"
  | PBool false => "False"
  | PInt z => str_of_Z z
  | PStr s => if r then repr_str s else s
  | PTuple items =>
      match items with
      | [x] => "(" ++ py_text true x ++ ",)"
      | _ => "(" ++ join ", " (map (py_text true) items) ++ ")"
      end
  | PList items => "[" ++ join ", " (map (py_text true) items) ++ "]"
  | PSlice a b c =>
      "slice(" ++ py_text true a ++ ", " ++ py_text true b ++ ", "
               ++ py_text true c ++ ")"
  | PColumn cls name => "<" ++ cls ++ ": " ++ py_text false name ++ ">"
  end.

Definition py_str : pyval -> string := py_text false.
Definition py_repr : pyval -> string := py_text true.

(** [bool(v)] *)
Definition truthy (v : pyval) : bool :=
  match v with
  | PNone => false
  | PBool b => b
  | PInt z => negb (z =? 0)
  | PStr s => negb (String.eqb s "")
  | PTuple items | PList items =>
      match items with [] => false | _ => true end
  | PSlice _ _ _ | PColumn _ _ => true
  end.

(** [v is None] *)
Definition is_None (v : pyval) : bool :=
  match v with PNone => true | _ => false end.

(** [v is True] *)
Definition is_True (v : pyval) : bool :=
  match v with PBool true => true | _ => false end.

(** [isinstance(v, bool)] *)
Definition is_bool (v : pyval) : bool :=
  match v with PBool _ => true | _ => false end.

(** [isinstance(v, slice)] *)
Definition is_slice (v : pyval) : bool :=
  match v with PSlice _ _ _ => true | _ => false end.

(** [isinstance(v, list)] *)
Definition is_list (v : pyval) : bool :=
  match v with PList _ => true | _ => false end.

(** [isinstance(v, Column)] *)
Definition is_Column (v : pyval) : bool :=
  match v with PColumn _ _ => true | _ => false end.

(** The items [tuple(v)] collects when [isinstance(v, Iterable)] holds,
    [None] when it does not.  Strings iterate over their characters;
    [Column] defines [__getitem__] but no [__iter__], so it is not an
    [Iterable]. *)
Definition iter_items (v : pyval) : option (list pyval) :=
  match v with
  | PStr s => Some (map (fun c => PStr (String c "")) (list_ascii_of_string s))
  | PTuple items | PList items => Some items
  | _ => None
  end.

(** The class name [type(v).__name__] shows in error messages. *)
Definition type_name (v : pyval) : string :=
  match v with
  | PNone => "NoneType"
  | PBool _ => "bool"
  | PInt _ => "int"
  | PStr _ => "str"
  | PTuple _ => "tuple"
  | PList _ => "list"
  | PSlice _ _ _ => "slice"
  | PColumn cls _ => cls
  end.

(** ** [str.format] with keyword arguments

    The templates of the source hold literal text and plain named fields
    [{key}] only (no [{{] escapes, conversions or format specifiers), and
    this is what [format] interprets.  [field] is [Some acc] while the
    characters of a field name are being read. *)
Fixpoint kw_lookup (key : string) (kw : list (string * pyval)) : option pyval :=
  match kw with
  | [] => None
  | (k, v) :: rest => if String.eqb k key then Some v else kw_lookup key rest
  end.

Fixpoint format_from (tpl : string) (field : option string)
         (kw : list (string * pyval)) : result string :=
  match tpl, field with
  | EmptyString, None => Ok ""
  | EmptyString, Some _ => Raise (ValueError "expected '}' before end of string")
  | String c rest, None =>
      if Ascii.eqb c "{" then format_from rest (Some "") kw
      else if Ascii.eqb c "}"
           then Raise (ValueError "Single '}' encountered in format string")
      else let? out := format_from rest None kw in Ok (String c out)
  | String c rest, Some acc =>
      if Ascii.eqb c "}"
      then match kw_lookup acc kw with
           | Some v => let? out := format_from rest None kw in
                       Ok (py_str v ++ out)
           | None => Raise (KeyError (repr_str acc))
           end
      else format_from rest (Some (acc ++ String c "")) kw
  end.

Definition format (tpl : string) (kw : list (string * pyval)) : result string :=
  format_from tpl None kw.

End Py.
Import Py.


(* ================================================================== *)
(** * field.py: operator tokens, [Cnt], [Expr], [Column] *)
(* ================================================================== *)

(** [OPER = TrodDict(...)]: a mapping read by attribute; every use in the
    source is a constant attribute access, so each entry is a constant. *)
Module OPER.
Definition AND := "AND".
Definition OR := "OR".
Definition ADD := "+".
Definition SUB := "-".
Definition MUL := "*".
Definition DIV := "/".
Definition BIN_AND := "&".
Definition BIN_OR := "|".
Definition XOR := "#".
Definition MOD := "%".
Definition EQ := "=".
Definition LT := "<".
Definition LTE := "<=".
Definition GT := ">".
Definition GTE := ">=".
Definition NE := "!=".
Definition IN := "IN".
Definition NOT_IN := "NOT IN".
Definition IS := "IS".
Definition IS_NOT := "IS NOT".
Definition LIKE := "LIKE".
Definition ILIKE := "ILIKE".
Definition EXISTS := "EXISTS".
Definition BETWEEN := "BETWEEN".
Definition REGEXP := "REGEXP".
Definition IREGEXP := "IREGEXP".
Definition BITWISE_NEGATION := "~".
End OPER.

Module Cnt.

Record t : Type := mk { pair : pyval * pyval; op : string }.

(** [Cnt.__init__(self, pair, op, encap=False)] *)
Definition __init__ (pair : pyval * pyval) (op : string) (encap : bool) : t :=
  if negb encap then mk pair op
  else mk (PStr ("(" ++ py_str (fst pair) ++ ")"),
           PStr ("(" ++ py_str (snd pair) ++ ")")) op.

(** The [sql] property. *)
Definition sql (self : t) : string :=
  py_str (fst (pair self)) ++ " " ++ op self ++ " " ++ py_str (snd (pair self)).

End Cnt.

Module Expr.

Record t : Type := mk {
  lhs : pyval;
  op : string;
  rhs : pyval;
  flat : bool;
  logic : bool
}.

(** [x.name if isinstance(x, Column) else x] *)
Definition name_or_self (x : pyval) : pyval :=
  match x with
  | PColumn _ name => name
  | _ => x
  end.

(** [Expr.__init__(self, lhs, op, rhs, flat=False, logic=False)] *)
Definition __init__ (lhs : pyval) (op : string) (rhs : pyval)
           (flat logic : bool) : t :=
  mk (name_or_self lhs) op (name_or_self rhs) flat logic.

(** [self.op in (OPER.IN, OPER.NOT_IN, OPER.EXISTS)] *)
Definition is_membership (op : string) : bool :=
  existsb (String.eqb op) [OPER.IN; OPER.NOT_IN; OPER.EXISTS].

(** [Expr.__sql__]: the text, and [self] after the call (the method
    replaces [self.rhs] by [tuple(self.rhs)] for a membership operator). *)
Definition __sql__ (self : t) : result (string * t) :=
  let? self' :=
    (if is_membership (op self) then
       match iter_items (rhs self) with
       | None =>
           Raise (ValueError ("The value of the operator " ++ py_str (rhs self)
                              ++ " should be an Iterable object"))
       | Some items =>
           Ok (mk (lhs self) (op self) (PTuple items) (flat self) (logic self))
       end
     else Ok self) in
  Ok (Cnt.sql (Cnt.__init__ (lhs self', rhs self') (op self') (logic self')),
      self').

(** [Expr.sql]: the text [__sql__] returns. *)
Definition sql (self : t) : result string :=
  let? r := __sql__ self in Ok (fst r).

(** What the right operand of [&] and [|] can be: another expression
    object, or any other value. *)
Inductive arg : Type :=
| AnExpr (e : t)
| AValue (v : pyval).

(** [Expr.__and__]: both operands are rendered (left first) and the two
    texts become the operands of a new expression with [logic=True]. *)
Definition __and__ (self : t) (expr : arg) : result t :=
  match expr with
  | AnExpr e =>
      let? l := __sql__ self in
      let? r := __sql__ e in
      Ok (__init__ (PStr (fst l)) OPER.AND (PStr (fst r)) false true)
  | AValue _ => Raise (ValueError "")
  end.

(** [Expr.__or__] *)
Definition __or__ (self : t) (expr : arg) : result t :=
  match expr with
  | AnExpr e =>
      let? l := __sql__ self in
      let? r := __sql__ e in
      Ok (__init__ (PStr (fst l)) OPER.OR (PStr (fst r)) false true)
  | AValue _ => Raise (ValueError "")
  end.

(** The binary special methods the class body of [Expr] defines. *)
Definition special_methods : list (string * (t -> arg -> result t)) :=
  [("__and__", __and__); ("__or__", __or__)].

Fixpoint find_special (name : string)
         (table : list (string * (t -> arg -> result t)))
  : option (t -> arg -> result t) :=
  match table with
  | [] => None
  | (n, m) :: rest => if String.eqb n name then Some m else find_special name rest
  end.

(** [b <sym> e] for a boolean [b] on the left of an expression [e]:
    [bool.__and__(b, e)] (or [__or__]) answers [NotImplemented] for an
    operand that is not an integer, so Python looks the reflected method
    [rname] up on [Expr] and raises [TypeError] when there is none. *)
Definition bool_binop (sym rname : string) (b : bool) (e : t) : result t :=
  match find_special rname special_methods with
  | Some m => m e (AValue (PBool b))
  | None =>
      Raise (TypeError ("unsupported operand type(s) for " ++ sym
                        ++ ": 'bool' and 'Expr'"))
  end.

(** [b & e] *)
Definition bool_and : bool -> t -> result t := bool_binop "&" "__rand__".
(** [b | e] *)
Definition bool_or : bool -> t -> result t := bool_binop "|" "__ror__".

End Expr.

Module Column.

(** A column object: the name of its class, which [__repr__] shows, and
    its [name] slot. *)
Record t : Type := mk { cls : string; name : pyval }.

Definition val (self : t) : pyval := PColumn (cls self) (name self).

(** [Column(name)] *)
Definition __init__ (name : pyval) : t := mk "Column" name.

(** [Column.__repr__], also [__str__] *)
Definition __repr__ (self : t) : string :=
  "<" ++ cls self ++ ": " ++ py_str (name self) ++ ">".

(** [_expr(op, inv)] returns the method [wraper(self, rhs)]. *)
Definition _expr (op : string) (inv : bool) (self : t) (rhs : pyval) : Expr.t :=
  if inv then Expr.__init__ rhs op (val self) false false
  else Expr.__init__ (val self) op rhs false false.

Definition __and__ := _expr OPER.AND false.
Definition __or__ := _expr OPER.OR false.

Definition __add__ := _expr OPER.ADD false.
Definition __sub__ := _expr OPER.SUB false.
Definition __mul__ := _expr OPER.MUL false.
Definition __truediv__ := _expr OPER.DIV false.
Definition __div__ := __truediv__.
Definition __xor__ := _expr OPER.XOR false.
Definition __radd__ := _expr OPER.ADD true.
Definition __rsub__ := _expr OPER.SUB true.
Definition __rmul__ := _expr OPER.MUL true.
Definition __rtruediv__ := _expr OPER.DIV true.
Definition __rdiv__ := __rtruediv__.
Definition __rand__ := _expr OPER.AND true.
Definition __ror__ := _expr OPER.OR true.
Definition __rxor__ := _expr OPER.XOR true.

Definition __eq__ (self : t) (rhs : pyval) : Expr.t :=
  let op := if is_None rhs then OPER.IS else OPER.EQ in
  Expr.__init__ (val self) op rhs false false.

Definition __ne__ (self : t) (rhs : pyval) : Expr.t :=
  let op := if is_None rhs then OPER.IS_NOT else OPER.NE in
  Expr.__init__ (val self) op rhs false false.

Definition __lt__ := _expr OPER.LT false.
Definition __le__ := _expr OPER.LTE false.
Definition __gt__ := _expr OPER.GT false.
Definition __ge__ := _expr OPER.GTE false.
Definition __lshift__ := _expr OPER.IN false.
Definition __rshift__ := _expr OPER.IS false.
Definition __mod__ := _expr OPER.LIKE false.
Definition __pow__ := _expr OPER.ILIKE false.

Definition b_and := _expr OPER.BIN_AND false.
Definition b_or := _expr OPER.BIN_OR false.
Definition in_ := _expr OPER.IN false.
Definition nin := _expr OPER.NOT_IN false.
Definition regexp := _expr OPER.REGEXP false.
Definition iregexp := _expr OPER.IREGEXP false.
Definition exists_ := _expr OPER.EXISTS false.
Definition like := _expr OPER.LIKE false.

(** [is_null(self, is_null=True)] *)
Definition is_null (self : t) (is_null : pyval) : Expr.t :=
  let op := if truthy is_null then OPER.IS else OPER.IS_NOT in
  Expr.__init__ (val self) op PNone false false.

Definition contains (self : t) (rhs : pyval) : Expr.t :=
  Expr.__init__ (val self) OPER.ILIKE (PStr ("%" ++ py_str rhs ++ "%")) false false.

Definition startswith (self : t) (rhs : pyval) : Expr.t :=
  Expr.__init__ (val self) OPER.ILIKE (PStr (py_str rhs ++ "%")) false false.

Definition endswith (self : t) (rhs : pyval) : Expr.t :=
  Expr.__init__ (val self) OPER.ILIKE (PStr ("%" ++ py_str rhs)) false false.

Definition between (self : t) (low hig : pyval) : Expr.t :=
  Expr.__init__ (val self) OPER.BETWEEN
    (PStr (Cnt.sql (Cnt.__init__ (low, hig) OPER.AND false))) false false.

(** The base class of each column class of the module: [FieldBase]
    extends [Column]; [Tinyint] and [Text] extend [FieldBase]; [Smallint]
    and [Int] extend [Tinyint]; [Bigint] extends [Int]. *)
Definition base (cls : string) : option string :=
  if String.eqb cls "FieldBase" then Some "Column"
  else if String.eqb cls "Tinyint" then Some "FieldBase"
  else if String.eqb cls "Smallint" then Some "Tinyint"
  else if String.eqb cls "Int" then Some "Tinyint"
  else if String.eqb cls "Bigint" then Some "Int"
  else if String.eqb cls "Text" then Some "FieldBase"
  else None.

(** [sup] is among the first [depth] ancestors of [sub]. *)
Fixpoint inherits (depth : nat) (sub sup : string) : bool :=
  match depth with
  | O => false
  | S depth' =>
      match base sub with
      | Some b => String.eqb b sup || inherits depth' b sup
      | None => false
      end
  end.

(** [sub] is a subclass of [sup] other than [sup] itself; the longest
    chain of bases, that of [Bigint], has four classes. *)
Definition proper_subclass (sub sup : string) : bool := inherits 4 sub sup.

(** The expression [self == item].  Python gives the [__eq__] of the right
    operand the first call when its class is a proper subclass of the class
    of the left operand: for such a column [item] the result is
    [item.__eq__(self)]; in every other case it is [self.__eq__(item)].
    Either call returns an expression, so no second call is made. *)
Definition eq_operator (self : t) (item : pyval) : Expr.t :=
  match item with
  | PColumn item_cls item_name =>
      if proper_subclass item_cls (cls self)
      then __eq__ (mk item_cls item_name) (val self)
      else __eq__ self item
  | _ => __eq__ self item
  end.

Definition __getitem__ (self : t) (item : pyval) : result Expr.t :=
  match item with
  | PSlice start stop _ =>
      if is_None start || is_None stop then
        Raise (ValueError "BETWEEN range must have both a start and end-point.")
      else Ok (between self start stop)
  | _ => Ok (eq_operator self item)
  end.

End Column.

(* ================================================================== *)
(** * Process-wide state *)
(* ================================================================== *)

(** The class attributes [FieldBase._field_counter] and
    [BaseIndex._attr_key_num], and the messages passed to [warnings.warn],
    latest last. *)
Record World : Type := mkWorld {
  field_counter : Z;
  attr_key_num : Z;
  warned : list string
}.

(** Both counters are [0] when the modules are loaded. *)
Definition initial_world : World := mkWorld 0 0 [].

(** A call that reads and writes the process-wide state and may raise; a
    raise keeps the state reached so far. *)
Definition M (A : Type) : Type := World -> result A * World.

Definition ret {A} (a : A) : M A := fun w => (Ok a, w).

Definition raise {A} (e : exn) : M A := fun w => (Raise e, w).

Definition bindM {A B} (m : M A) (k : A -> M B) : M B :=
  fun w =>
    match m w with
    | (Ok a, w') => k a w'
    | (Raise e, w') => (Raise e, w')
    end.

Definition lift {A} (r : result A) : M A := fun w => (r, w).

(** [warnings.warn(msg)] *)
Definition warn (msg : string) : M unit :=
  fun w => (Ok tt, mkWorld (field_counter w) (attr_key_num w) (List.app (warned w) [msg])).

Notation "'let!' x ':=' c 'in' k" := (bindM c (fun x => k))
  (at level 10, x pattern, c at level 100, k at level 200).

(* ================================================================== *)
(** * field.py: [FieldBase] and the field classes *)
(* ================================================================== *)

Module Field.

Inductive klass : Type :=
| FieldBase | Tinyint | Smallint | Int | Bigint | Text.

Definition class_name (k : klass) : string :=
  match k with
  | FieldBase => "FieldBase"
  | Tinyint => "Tinyint"
  | Smallint => "Smallint"
  | Int => "Int"
  | Bigint => "Bigint"
  | Text => "Text"
  end.

(** The class attribute [_db_type] *)
Definition _db_type (k : klass) : pyval :=
  match k with
  | FieldBase => PNone
  | Tinyint => PStr "tinyint"
  | Smallint => PStr "smallint"
  | Int => PStr "int"
  | Bigint => PStr "bigint"
  | Text => PStr "text"
  end.

(** The class attribute [_type_tpl]; [FieldBase] has none. *)
Definition _type_tpl (k : klass) : option string :=
  match k with
  | FieldBase => None
  | Tinyint | Smallint | Int | Bigint => Some "{type}({length})"
  | Text => Some "{type}"
  end.

(** A field object.  [null] is a boolean in every constructed object:
    [FieldBase.__init__] refuses anything else and [Int.__init__] only ever
    assigns [False].  [unsigned], [length], [primary_key] and [encoding] are
    present once the constructor of the class that declares them has run. *)
Record t : Type := mk {
  cls : klass;
  name : pyval;
  null : bool;
  default : pyval;
  comment : pyval;
  _seq_num : Z;
  unsigned : option pyval;
  length : option pyval;
  primary_key : option pyval;
  encoding : option pyval
}.

(** A field is a column. *)
Definition column (self : t) : Column.t :=
  Column.mk (class_name (cls self)) (name self).

(** *** Constructors *)

(** [FieldBase.__init__(self, name, null, default, comment)], run for an
    object of class [k]. *)
Definition FieldBase__init__ (k : klass) (name null default comment : pyval)
  : M t :=
  match null with
  | PBool b =>
      fun w =>
        let counter := field_counter w + 1 in
        (Ok (mk k name b default comment counter None None None None),
         mkWorld counter (attr_key_num w) (warned w))
  | _ => raise (ValueError ("Unexpected `null` type: " ++ py_str null))
  end.

(** [Tinyint.__init__(self, length, unsigned=False, null=True,
    default=None, comment='', name=None)] *)
Definition Tinyint__init__ (k : klass)
           (length unsigned null default comment name : pyval) : M t :=
  let! self := FieldBase__init__ k name null default comment in
  ret (mk (cls self) (Field.name self) (Field.null self) (Field.default self)
          (Field.comment self) (_seq_num self)
          (Some unsigned) (Some length) (primary_key self) (encoding self)).

(** [Int.__init__(self, length, unsigned=False, null=True,
    primary_key=False, default=None, comment='', name=None)] *)
Definition Int__init__ (k : klass)
           (length unsigned null primary_key default comment name : pyval)
  : M t :=
  let! self := Tinyint__init__ k length unsigned null default comment name in
  if is_True primary_key then
    let! _ := (if Field.null self
               then warn "Primary_key is not allow null, use default"
               else ret tt) in
    ret (mk (cls self) (Field.name self) false PNone
            (Field.comment self) (_seq_num self)
            (Field.unsigned self) (Field.length self)
            (Some primary_key) (encoding self))
  else
    ret (mk (cls self) (Field.name self) (Field.null self) (Field.default self)
            (Field.comment self) (_seq_num self)
            (Field.unsigned self) (Field.length self)
            (Some primary_key) (encoding self)).

(** [Text.__init__(self, encoding=None, null=True, comment='', name=None)] *)
Definition Text__init__ (encoding null comment name : pyval) : M t :=
  let! self := FieldBase__init__ Text name null PNone comment in
  ret (mk (cls self) (Field.name self) (Field.null self) (Field.default self)
          (Field.comment self) (_seq_num self)
          (unsigned self) (length self) (primary_key self) (Some encoding)).

(** The arguments of a constructor call; a class reads the ones its
    constructor takes. *)
Record args : Type := mkArgs {
  a_length : pyval;
  a_unsigned : pyval;
  a_null : pyval;
  a_primary_key : pyval;
  a_default : pyval;
  a_comment : pyval;
  a_name : pyval;
  a_encoding : pyval
}.

(** The defaults of the keyword parameters; [length] has none. *)
Definition keyword_defaults (length : pyval) : args :=
  mkArgs length (PBool false) (PBool true) (PBool false) PNone (PStr "")
         PNone PNone.

(** [k(...)]: the constructor call of class [k]. *)
Definition construct (k : klass) (a : args) : M t :=
  match k with
  | FieldBase =>
      FieldBase__init__ k (a_name a) (a_null a) (a_default a) (a_comment a)
  | Tinyint | Smallint =>
      Tinyint__init__ k (a_length a) (a_unsigned a) (a_null a) (a_default a)
                      (a_comment a) (a_name a)
  | Int | Bigint =>
      Int__init__ k (a_length a) (a_unsigned a) (a_null a) (a_primary_key a)
                  (a_default a) (a_comment a) (a_name a)
  | Text => Text__init__ (a_encoding a) (a_null a) (a_comment a) (a_name a)
  end.

(** *** Attributes *)

Definition no_attribute (self : t) (a : string) : exn :=
  AttributeError ("'" ++ class_name (cls self) ++ "' object has no attribute '"
                  ++ a ++ "'").

(** The slots of the object and the constant class attributes, by name. *)
Definition slot (self : t) (a : string) : option pyval :=
  if String.eqb a "name" then Some (name self)
  else if String.eqb a "null" then Some (PBool (null self))
  else if String.eqb a "default" then Some (default self)
  else if String.eqb a "comment" then Some (comment self)
  else if String.eqb a "_seq_num" then Some (PInt (_seq_num self))
  else if String.eqb a "unsigned" then unsigned self
  else if String.eqb a "length" then length self
  else if String.eqb a "primary_key" then primary_key self
  else if String.eqb a "encoding" then encoding self
  else if String.eqb a "_db_type" then Some (_db_type (cls self))
  else if String.eqb a "_spaces" then Some (PStr " ")
  else if String.eqb a "_type_tpl" then option_map PStr (_type_tpl (cls self))
  else None.

(** The names the classes define besides those of [slot] and the
    properties: methods, and state that is not a plain value.  None of them
    is read as a value by the code modelled here. *)
Definition other_names : list string :=
  ["_expr"; "__init__"; "__repr__"; "__str__"; "__and__"; "__or__";
   "__add__"; "__sub__"; "__mul__"; "__div__"; "__truediv__"; "__xor__";
   "__radd__"; "__rsub__"; "__rmul__"; "__rdiv__"; "__rtruediv__";
   "__rand__"; "__ror__"; "__rxor__"; "__eq__"; "__ne__"; "__lt__"; "__le__";
   "__gt__"; "__ge__"; "__lshift__"; "__rshift__"; "__mod__"; "__pow__";
   "b_and"; "b_or"; "in_"; "nin"; "regexp"; "iregexp"; "exists"; "like";
   "is_null"; "contains"; "startswith"; "endswith"; "between";
   "__getitem__"; "__slots__"; "_py_type"; "_field_counter"; "sql"; "auto"].

(** The [_allow_null] property: [self.null is True or self.null == 1] *)
Definition _allow_null (self : t) : pyval :=
  PBool (is_True (PBool (null self)) || ((if null self then 1 else 0) =? 1)).

(** The [_type] property: [FieldBase._type], [Tinyint._type], [Text._type]. *)
Definition _type (self : t) : result string :=
  match cls self with
  | FieldBase => Raise NotImplementedError
  | Tinyint | Smallint | Int | Bigint =>
      match _type_tpl (cls self), length self, unsigned self with
      | Some tpl, Some len, Some uns =>
          let? data_type := format tpl [("type", _db_type (cls self));
                                        ("length", len)] in
          if is_True uns then Ok (data_type ++ " unsigned") else Ok data_type
      | None, _, _ => Raise (no_attribute self "_type_tpl")
      | _, None, _ => Raise (no_attribute self "length")
      | _, _, None => Raise (no_attribute self "unsigned")
      end
  | Text =>
      match _type_tpl (cls self) with
      | Some tpl => format tpl [("type", _db_type (cls self))]
      | None => Raise (no_attribute self "_type_tpl")
      end
  end.

(** The [seq_num] property *)
Definition seq_num (self : t) : Z := _seq_num self.

(** [self.<a>] for the names that hold a plain value, [_stmt] apart: the
    properties, then the slots and the constant class attributes, and
    [AttributeError] for a name that no class defines.  The names of
    [other_names] (methods, [_py_type], [_field_counter]) hold values
    that are no [pyval]; they are outside the domain of this function,
    which is never applied to them. *)
Definition getattr0 (self : t) (a : string) : result pyval :=
  if String.eqb a "_allow_null" then Ok (_allow_null self)
  else if String.eqb a "_type" then let? ty := _type self in Ok (PStr ty)
  else if String.eqb a "seq_num" then Ok (PInt (seq_num self))
  else match slot self a with
       | Some v => Ok v
       | None => Raise (no_attribute self a)
       end.

(** [FieldBase._stmt].  The branch for a default that is not [None] opens
    with [isinstance(self, Float)], and the module defines no [Float]: the
    branch raises [NameError] there, whatever follows in it. *)
Definition FieldBase_stmt (self : t) : M string :=
  let! a := lift (getattr0 self "allow_null") in
  let allow_null := if truthy a then "NULL" else "NOT NULL" in
  let stmt_list := [allow_null] in
  let! _ :=
    (if negb (is_None (default self)) then
       raise (NameError "name 'Float' is not defined")
     else
       let! a' := lift (getattr0 self "allow_null") in
       if negb (truthy a') then
         warn ("Not to give default value for NOT NULL field "
               ++ py_str (name self))
       else ret tt) in
  let stmt_list :=
    if truthy (comment self)
    then List.app stmt_list ["COMMENT '" ++ py_str (comment self) ++ "'"]
    else stmt_list in
  ret (join " " stmt_list).

(** [Text._stmt] *)
Definition Text_stmt (self : t) : M string :=
  let! enc := lift (getattr0 self "encoding") in
  let stmt :=
    if negb (is_None enc) then ["CHARACTER SET " ++ py_str enc] else [] in
  let! a := lift (getattr0 self "allow_null") in
  let stmt :=
    if truthy a then List.app stmt ["NULL"] else List.app stmt ["NOT NULL"] in
  let stmt :=
    if truthy (comment self)
    then List.app stmt ["COMMENT '" ++ py_str (comment self) ++ "'"]
    else stmt in
  ret (join " " stmt).

(** The [_stmt] property of the object's class. *)
Definition _stmt (self : t) : M string :=
  match cls self with
  | Text => Text_stmt self
  | _ => FieldBase_stmt self
  end.

(** [self.<a>] *)
Definition getattr (self : t) (a : string) : M pyval :=
  if String.eqb a "_stmt" then let! s := _stmt self in ret (PStr s)
  else lift (getattr0 self a).

(** [FieldBase.sql]: [f"{self.type} {self.stmt}"] *)
Definition sql (self : t) : M string :=
  let! type := getattr self "type" in
  let! stmt := getattr self "stmt" in
  ret (py_str type ++ " " ++ py_str stmt).

End Field.

(* ================================================================== *)
(** * index.py: [BaseIndex], [Key], [UniqueKey] *)
(* ================================================================== *)

Module Index.

Inductive klass : Type :=
| BaseIndex | Key | UniqueKey.

(** The class attribute [_type_sql_tpl]; it is [None] on [BaseIndex]. *)
Definition _type_sql_tpl (k : klass) : option string :=
  match k with
  | BaseIndex => None
  | Key => Some "KEY `{key_name}` ({cols}) COMMENT '{comment}'"
  | UniqueKey => Some "UNIQUE KEY `{key_name}` ({cols}) COMMENT '{comment}'"
  end.

Record t : Type := mk {
  cls : klass;
  name : pyval;
  comment : pyval;
  column : list pyval;
  options : list (string * pyval)
}.

(** [text.find('=')]: the first position of ['='], [-1] when there is none. *)
Fixpoint find_eq (text : string) : Z :=
  match text with
  | EmptyString => -1
  | String c rest =>
      if Ascii.eqb c "=" then 0
      else let i := find_eq rest in if i <? 0 then -1 else i + 1
  end.

Fixpoint take (n : nat) (text : string) : string :=
  match n, text with
  | S n', String c rest => String c (take n' rest)
  | _, _ => ""
  end.

(** [text[:stop]], a negative [stop] counting from the end. *)
Definition slice_to (text : string) (stop : Z) : string :=
  let len := Z.of_nat (String.length text) in
  let stop' := if stop <? 0 then Z.max 0 (len + stop) else stop in
  take (Z.to_nat stop') text.

(** The code points below 256 that [str.strip()] removes. *)
Definition is_space (c : ascii) : bool :=
  let n := nat_of_ascii c in
  ((9 <=? n) && (n <=? 13) || (28 <=? n) && (n <=? 32)
   || (n =? 133) || (n =? 160))%nat.

Fixpoint lstrip (l : list ascii) : list ascii :=
  match l with
  | c :: rest => if is_space c then lstrip rest else l
  | [] => []
  end.

(** [text.strip()] *)
Definition strip (text : string) : string :=
  string_of_list_ascii
    (rev (lstrip (rev (lstrip (list_ascii_of_string text))))).

(** [BaseIndex.__init__(self, column, comment='', name=None)], run for an
    object of class [k].  [caller_text] is the source line of the calling
    frame, which [traceback.extract_stack()[-2]] hands to the constructor
    (taken here as available); it is read only when no name is given. *)
Definition __init__ (k : klass) (caller_text : string)
           (column comment name : pyval) : t :=
  let name :=
    if is_None name
    then PStr (strip (slice_to caller_text (find_eq caller_text)))
    else name in
  let column := match column with
                | PList items => items
                | _ => [column]
                end in
  let column := map (fun c => PStr ("`" ++ py_str c ++ "`")) column in
  mk k name comment column
     [("key_name", name);
      ("cols", PStr (join "," (map py_str column)));
      ("comment", comment)].

(** [BaseIndex.build]: the template of the class, formatted with the
    entries of [self.options] as keyword arguments. *)
Definition build (self : t) : result string :=
  match _type_sql_tpl (cls self) with
  | Some tpl => format tpl (options self)
  | None => Raise (AttributeError "'NoneType' object has no attribute 'format'")
  end.

(** The [_attr_key] property: every read advances
    [BaseIndex._attr_key_num] and returns the new value. *)
Definition _attr_key (self : t) : M Z :=
  fun w =>
    let n := attr_key_num w + 1 in
    (Ok n, mkWorld (field_counter w) n (warned w)).

Definition class_name (k : klass) : string :=
  match k with
  | BaseIndex => "BaseIndex"
  | Key => "Key"
  | UniqueKey => "UniqueKey"
  end.

(** [BaseIndex.__str__]: the template [<{} ({}: {})>], its three fields
    filled in order with the class name, the name and the comment. *)
Definition __str__ (self : t) : string :=
  "<" ++ class_name (cls self) ++ " (" ++ py_str (name self) ++ ": "
      ++ py_str (comment self) ++ ")>".

End Index.

(* ================================================================== *)
(** * Declarations in sequence *)
(* ================================================================== *)

(** A field or key declaration, as a constructor call with its arguments. *)
Inductive decl : Type :=
| DeclField (k : Field.klass) (a : Field.args)
| DeclKey (k : Index.klass) (caller_text : string)
          (column comment name : pyval).

Inductive declared : Type :=
| AField (f : Field.t)
| AKey (k : Index.t).

Definition declare (d : decl) : M declared :=
  match d with
  | DeclField k a => let! f := Field.construct k a in ret (AField f)
  | DeclKey k text column comment name =>
      ret (AKey (Index.__init__ k text column comment name))
  end.

(** The declarations of a process, run one after the other; a constructor
    that raises yields no object and the declarations after it still run
    (the caller may handle the exception). *)
Fixpoint declare_all (ds : list decl) (w : World)
  : list (result declared) * World :=
  match ds with
  | [] => ([], w)
  | d :: rest =>
      let (r, w1) := declare d w in
      let (rs, w2) := declare_all rest w1 in
      (r :: rs, w2)
  end.

(** The sequence numbers of the fields that were constructed, in
    declaration order. *)
Fixpoint field_seq_nums (rs : list (result declared)) : list Z :=
  match rs with
  | [] => []
  | Ok (AField f) :: rest => Field.seq_num f :: field_seq_nums rest
  | _ :: rest => field_seq_nums rest
  end.

(** ** The renderings the specification describes

    These follow the wording of the specification, for comparison with the
    renderings above. *)

(** [(<left> <OP> <right>);] *)
Definition spec_value_expression (left op right : string) : string :=
  "(" ++ left ++ " " ++ op ++ " " ++ right ++ ");".

(** [((<a>) AND (<b>))], and the same with [OR] *)
Definition spec_logical (a op b : string) : string :=
  "((" ++ a ++ ") " ++ op ++ " (" ++ b ++ "))".

(** [KEY `name` (`c1`, `c2`);] with [ COMMENT 'text'] before the
    terminator when the comment is not empty; [prefix] is [KEY] or
    [UNIQUE KEY]. *)
Definition spec_key_line (prefix name : string) (cols : list string)
           (comment : string) : string :=
  prefix ++ " `" ++ name ++ "` ("
  ++ join ", " (map (fun c => "`" ++ c ++ "`") cols) ++ ")"
  ++ (if String.eqb comment "" then "" else " COMMENT '" ++ comment ++ "'")
  ++ ";".

(** ** Sample objects *)

(** The columns [age] and [name] of the examples. *)
Definition age : Column.t := Column.mk "Int" (PStr "age").
Definition name_ : Column.t := Column.mk "Column" (PStr "name").

(** [Tinyint(4, name='ty')], constructed first in a fresh process. *)
Definition ty_args : Field.args :=
  Field.mkArgs (PInt 4) (PBool false) (PBool true) (PBool false) PNone
               (PStr "") (PStr "ty") PNone.

(** [Int(11, primary_key=True, default=1, name='int')] *)
Definition int_pk_args : Field.args :=
  Field.mkArgs (PInt 11) (PBool false) (PBool true) (PBool true) (PInt 1)
               (PStr "") (PStr "int") PNone.

(** [Text(null=0, name='text')] *)
Definition text_null0_args : Field.args :=
  Field.mkArgs PNone (PBool false) (PInt 0) (PBool false) PNone
               (PStr "") (PStr "text") PNone.

(** [Key(['c1', 'c2'], name='name')] *)
Definition key_c1_c2 : Index.t :=
  Index.__init__ Index.Key "" (PList [PStr "c1"; PStr "c2"]) (PStr "")
                 (PStr "name").

(** The columns [phone] and [other] of the examples. *)
Definition phone : Column.t := Column.mk "Column" (PStr "phone").
Definition other : Column.t := Column.mk "Int" (PStr "ab").

(** [Bigint(20, unsigned=True, null=False, default=0, name='big')] *)
Definition big_args : Field.args :=
  Field.mkArgs (PInt 20) (PBool true) (PBool false) (PBool false) (PInt 0)
               (PStr "") (PStr "big") PNone.

(** [Text(encoding='utf8mb4', name='text')] *)
Definition text_args : Field.args :=
  Field.mkArgs PNone (PBool false) (PBool true) (PBool false) PNone
               (PStr "") (PStr "text") (PStr "utf8mb4").

(** Two reads of [key._attr_key], one after the other. *)
Definition read_attr_key_twice (key : Index.t) : M (Z * Z) :=
  let! first := Index._attr_key key in
  let! second := Index._attr_key key in
  ret (first, second).

(** [text[:-1]]: the text without its last character. *)
Definition without_last (text : string) : string :=
  Index.take (String.length text - 1) text.

(* ================================================================== *)
(** * Properties of the expression layer *)
(* ================================================================== *)

Section ExprFacts.

Lemma append_assoc (s1 s2 s3 : string) :
  (s1 ++ s2) ++ s3 = s1 ++ (s2 ++ s3).
Proof.
  induction s1 as [|c s1 IH]; cbn; [reflexivity|]. now rewrite IH.
Qed.

(** An expression whose operator is not a membership operator renders as
    its operands around the operator, and is left as it was. *)
Lemma sql_not_membership (e : Expr.t) :
  Expr.is_membership (Expr.op e) = false ->
  Expr.__sql__ e =
    Ok (Cnt.sql (Cnt.__init__ (Expr.lhs e, Expr.rhs e) (Expr.op e) (Expr.logic e)),
        e).
Proof.
  intros Hop. unfold Expr.__sql__. rewrite Hop. reflexivity.
Qed.

(** A membership expression over an iterable keeps the tuple of its items
    as right-hand side and renders with it. *)
Lemma sql_membership_iterable (e : Expr.t) (items : list pyval) :
  Expr.is_membership (Expr.op e) = true ->
  iter_items (Expr.rhs e) = Some items ->
  let e' := Expr.mk (Expr.lhs e) (Expr.op e) (PTuple items)
                    (Expr.flat e) (Expr.logic e) in
  Expr.__sql__ e =
    Ok (Cnt.sql (Cnt.__init__ (Expr.lhs e, PTuple items) (Expr.op e) (Expr.logic e)),
        e').
Proof.
  intros Hop Hit. unfold Expr.__sql__. rewrite Hop, Hit. reflexivity.
Qed.

(** A membership expression over a value that is not iterable does not
    render. *)
Lemma sql_membership_not_iterable (e : Expr.t) :
  Expr.is_membership (Expr.op e) = true ->
  iter_items (Expr.rhs e) = None ->
  Expr.__sql__ e =
    Raise (ValueError ("The value of the operator " ++ py_str (Expr.rhs e)
                       ++ " should be an Iterable object")).
Proof.
  intros Hop Hit. unfold Expr.__sql__. rewrite Hop, Hit. reflexivity.
Qed.

(** Rendering twice gives the same text: the object [__sql__] leaves
    behind renders as the original did.  This is why [__and__] and
    [__or__] need not hand the rendered operands back. *)
Lemma sql_again (e e' : Expr.t) (s : string) :
  Expr.__sql__ e = Ok (s, e') -> Expr.__sql__ e' = Ok (s, e').
Proof.
  intros H.
  destruct (Expr.is_membership (Expr.op e)) eqn:Hop.
  - destruct (iter_items (Expr.rhs e)) as [items|] eqn:Hit.
    + rewrite (sql_membership_iterable e items Hop Hit) in H.
      injection H as Hs He. subst e' s.
      now rewrite (sql_membership_iterable _ items).
    + rewrite sql_membership_not_iterable in H by assumption. discriminate H.
  - rewrite sql_not_membership in H by assumption.
    injection H as Hs He. subst e' s. now apply sql_not_membership.
Qed.

Lemma sql_text (e e' : Expr.t) (s : string) :
  Expr.__sql__ e = Ok (s, e') -> Expr.sql e = Ok s.
Proof.
  intros H. unfold Expr.sql. now rewrite H.
Qed.

Lemma sql_text_inv (e : Expr.t) (s : string) :
  Expr.sql e = Ok s -> exists e', Expr.__sql__ e = Ok (s, e').
Proof.
  unfold Expr.sql. destruct (Expr.__sql__ e) as [[s' e']|x]; cbn; [|discriminate].
  intros H. injection H as ->. now exists e'.
Qed.

(** [__eq__], [__ne__] and [is_null] build what the operator table builds
    with the token they choose. *)
Lemma eq_is_expr (c : Column.t) (v : pyval) :
  Column.__eq__ c v
  = Column._expr (if is_None v then OPER.IS else OPER.EQ) false c v.
Proof. reflexivity. Qed.

Lemma ne_is_expr (c : Column.t) (v : pyval) :
  Column.__ne__ c v
  = Column._expr (if is_None v then OPER.IS_NOT else OPER.NE) false c v.
Proof. reflexivity. Qed.

(** C1, on the code: [age > 10] renders as the bare text [age > 10], which
    is not of the shape [(<left> > <right>);] for any operand texts. *)
Lemma value_expression_not_wrapped :
  Expr.sql (Column.__gt__ age (PInt 10)) = Ok "age > 10"
  /\ ~ (exists l r : string,
          Expr.sql (Column.__gt__ age (PInt 10))
          = Ok (spec_value_expression l OPER.GT r)).
Proof.
  split; [reflexivity|].
  intros (l & r & H). cbv in H. discriminate H.
Qed.

(** C1 as the code has it: a value expression built from a column and an
    operand renders as [<left> <OP> <right>]: the column by its bare name,
    the operand by its text (the name, for a column operand), one space on
    either side of the operator token, in the order the operator was
    applied (mirrored for a reflected operator), with no enclosing
    parentheses, no terminator and no back-quotes added.  For a membership
    operator the right-hand side is shown as the tuple of the items of the
    iterable operand. *)
Theorem value_expression_sql (c : Column.t) (op : string) (v : pyval) :
  (Expr.is_membership op = false ->
     Expr.sql (Column._expr op false c v)
     = Ok (py_str (Column.name c) ++ " " ++ op ++ " "
           ++ py_str (Expr.name_or_self v))
     /\ Expr.sql (Column._expr op true c v)
        = Ok (py_str (Expr.name_or_self v) ++ " " ++ op ++ " "
              ++ py_str (Column.name c)))
  /\ (forall items,
        Expr.is_membership op = true ->
        iter_items (Expr.name_or_self v) = Some items ->
        Expr.sql (Column._expr op false c v)
        = Ok (py_str (Column.name c) ++ " " ++ op ++ " "
              ++ py_str (PTuple items))).
Proof.
  split.
  - intros Hop. split.
    + apply sql_text with (e' := Column._expr op false c v).
      now rewrite sql_not_membership.
    + apply sql_text with (e' := Column._expr op true c v).
      now rewrite sql_not_membership.
  - intros items Hop Hit.
    eapply sql_text. rewrite (sql_membership_iterable _ items); auto.
Qed.

Lemma value_expression_sql_witness :
  Expr.is_membership OPER.GT = false
  /\ Expr.sql (Column.__gt__ age (PInt 10)) = Ok "age > 10"
  /\ Expr.sql (Column.__rsub__ age (PInt 100)) = Ok "100 - age"
  /\ Expr.sql (Column.in_ name_ (PList [PStr "at7h"; PStr "mejor"]))
     = Ok "name IN ('at7h', 'mejor')".
Proof.
  split; [reflexivity|split; [|split]].
  - exact (proj1 (proj1 (value_expression_sql age OPER.GT (PInt 10))
                        eq_refl)).
  - exact (proj2 (proj1 (value_expression_sql age OPER.SUB (PInt 100))
                        eq_refl)).
  - exact (proj2 (value_expression_sql name_ OPER.IN
                    (PList [PStr "at7h"; PStr "mejor"]))
                 [PStr "at7h"; PStr "mejor"] eq_refl eq_refl).
Defined.

(** C6, on the code: [(age > 10) & (name == 'test')] renders as
    [(age > 10) AND (name = test)]; no pair of parentheses encloses the
    whole, so the text is not of the shape [((<a>) AND (<b>))]. *)
Lemma conjunction_not_enclosed :
  (let? e := Expr.__and__ (Column.__gt__ age (PInt 10))
               (Expr.AnExpr (Column.__eq__ name_ (PStr "test"))) in
   Expr.sql e) = Ok "(age > 10) AND (name = test)"
  /\ ~ (exists a b : string,
          (let? e := Expr.__and__ (Column.__gt__ age (PInt 10))
                       (Expr.AnExpr (Column.__eq__ name_ (PStr "test"))) in
           Expr.sql e) = Ok (spec_logical a OPER.AND b)).
Proof.
  split; [reflexivity|].
  intros (a & b & H). cbv in H. discriminate H.
Qed.

(** C6 as the code has it: for expressions [a] and [b] that render as
    [sa] and [sb], [a & b] is an expression that renders as
    [(sa) AND (sb)] and [a | b] one that renders as [(sa) OR (sb)]: each
    side in a parenthesis pair of its own, and nothing around the whole. *)
Theorem logical_sides_parenthesized (a b : Expr.t) (sa sb : string) :
  Expr.sql a = Ok sa ->
  Expr.sql b = Ok sb ->
  (exists c, Expr.__and__ a (Expr.AnExpr b) = Ok c
             /\ Expr.logic c = true
             /\ Expr.sql c = Ok ("(" ++ sa ++ ") AND (" ++ sb ++ ")"))
  /\ (exists d, Expr.__or__ a (Expr.AnExpr b) = Ok d
              /\ Expr.logic d = true
              /\ Expr.sql d = Ok ("(" ++ sa ++ ") OR (" ++ sb ++ ")")).
Proof.
  intros Ha Hb.
  destruct (sql_text_inv _ _ Ha) as [a' Ha'].
  destruct (sql_text_inv _ _ Hb) as [b' Hb'].
  split.
  - exists (Expr.mk (PStr sa) OPER.AND (PStr sb) false true).
    unfold Expr.__and__. rewrite Ha', Hb'. repeat split.
    cbv [Expr.sql Expr.__sql__ Expr.is_membership Expr.op Expr.lhs Expr.rhs
         Expr.logic OPER.AND OPER.IN OPER.NOT_IN OPER.EXISTS existsb bind
         String.eqb Ascii.eqb Bool.eqb orb fst snd
         Cnt.sql Cnt.__init__ Cnt.pair Cnt.op negb py_str py_text].
    f_equal. cbn. now rewrite !append_assoc.
  - exists (Expr.mk (PStr sa) OPER.OR (PStr sb) false true).
    unfold Expr.__or__. rewrite Ha', Hb'. repeat split.
    cbv [Expr.sql Expr.__sql__ Expr.is_membership Expr.op Expr.lhs Expr.rhs
         Expr.logic OPER.OR OPER.IN OPER.NOT_IN OPER.EXISTS existsb bind
         String.eqb Ascii.eqb Bool.eqb orb fst snd
         Cnt.sql Cnt.__init__ Cnt.pair Cnt.op negb py_str py_text].
    f_equal. cbn. now rewrite !append_assoc.
Qed.

Lemma logical_sides_parenthesized_witness :
  Expr.sql (Column.__gt__ age (PInt 10)) = Ok "age > 10"
  /\ Expr.sql (Column.__eq__ name_ (PStr "test")) = Ok "name = test"
  /\ (exists c,
        Expr.__and__ (Column.__gt__ age (PInt 10))
                     (Expr.AnExpr (Column.__eq__ name_ (PStr "test"))) = Ok c
        /\ Expr.logic c = true
        /\ Expr.sql c = Ok "(age > 10) AND (name = test)").
Proof.
  split; [reflexivity|split; [reflexivity|]].
  exact (proj1 (logical_sides_parenthesized
                  (Column.__gt__ age (PInt 10))
                  (Column.__eq__ name_ (PStr "test"))
                  "age > 10" "name = test" eq_refl eq_refl)).
Defined.

(** C7, on the code: a boolean is refused on either side of [&]:
    [(age > 10) & True] raises [ValueError] and [True & (age > 10)] raises
    [TypeError]; neither yields an expression. *)
Lemma boolean_operand_refused :
  Expr.__and__ (Column.__gt__ age (PInt 10)) (Expr.AValue (PBool true))
  = Raise (ValueError "")
  /\ Expr.bool_and true (Column.__gt__ age (PInt 10))
     = Raise (TypeError "unsupported operand type(s) for &: 'bool' and 'Expr'")
  /\ ~ (exists e,
          Expr.__and__ (Column.__gt__ age (PInt 10)) (Expr.AValue (PBool true))
          = Ok e)
  /\ ~ (exists e, Expr.bool_and true (Column.__gt__ age (PInt 10)) = Ok e).
Proof.
  repeat split; intros [e H]; discriminate H.
Qed.

(** C7 as the code has it: the only operand [&] and [|] accept next to an
    expression is another expression.  With the expression on the left,
    every other value, a boolean included, is refused with [ValueError];
    with a boolean on the left the operation fails with [TypeError],
    [Expr] defining no reflected method. *)
Theorem logical_operand_must_be_expression (e : Expr.t) (v : pyval) (b : bool) :
  Expr.__and__ e (Expr.AValue v) = Raise (ValueError "")
  /\ Expr.__or__ e (Expr.AValue v) = Raise (ValueError "")
  /\ Expr.bool_and b e
     = Raise (TypeError "unsupported operand type(s) for &: 'bool' and 'Expr'")
  /\ Expr.bool_or b e
     = Raise (TypeError "unsupported operand type(s) for |: 'bool' and 'Expr'").
Proof.
  repeat split.
Qed.

(** C8: item access with a slice that has both bounds is the [between]
    expression of the bounds, which renders as
    [<name> BETWEEN <a> AND <b>]; with a slice that lacks its start or its
    stop it raises [ValueError]; with any other value but [None] it is the
    equality expression, which renders as [<name> = <value>].  When the
    value is itself a column of a proper subclass of the column's class,
    the comparison is the one of that column, and the two names stand the
    other way round, [<value's name> = <name>]. *)
Theorem getitem_slice_is_between (c : Column.t) (a b step v : pyval) :
  (a <> PNone -> b <> PNone ->
     Column.__getitem__ c (PSlice a b step) = Ok (Column.between c a b)
     /\ Expr.sql (Column.between c a b)
        = Ok (py_str (Column.name c) ++ " BETWEEN "
              ++ py_str a ++ " AND " ++ py_str b))
  /\ (a = PNone \/ b = PNone ->
      Column.__getitem__ c (PSlice a b step)
      = Raise (ValueError "BETWEEN range must have both a start and end-point."))
  /\ (is_slice v = false -> v <> PNone ->
      let mirrored :=
        match v with
        | PColumn v_cls _ => Column.proper_subclass v_cls (Column.cls c)
        | _ => false
        end in
      Column.__getitem__ c v = Ok (Column._expr OPER.EQ mirrored c v)
      /\ Expr.sql (Column._expr OPER.EQ mirrored c v)
         = Ok (if mirrored
               then py_str (Expr.name_or_self v) ++ " = "
                    ++ py_str (Column.name c)
               else py_str (Column.name c) ++ " = "
                    ++ py_str (Expr.name_or_self v))).
Proof.
  split; [|split].
  - intros Ha Hb. split.
    + destruct a; try contradiction; destruct b; try contradiction; reflexivity.
    + reflexivity.
  - intros [-> | ->]; [reflexivity|]. cbn. now rewrite orb_true_r.
  - intros Hs Hv. cbv zeta.
    destruct v as [| | | | | | |v_cls v_name];
      try discriminate Hs; try contradiction; try (split; reflexivity).
    unfold Column.__getitem__, Column.eq_operator.
    destruct (Column.proper_subclass v_cls (Column.cls c)); split; reflexivity.
Qed.

Lemma getitem_slice_is_between_witness :
  PInt 20 <> PNone /\ PInt 30 <> PNone
  /\ is_slice (PInt 10) = false /\ PInt 10 <> PNone
  /\ Column.__getitem__ age (PSlice (PInt 20) (PInt 30) PNone)
     = Ok (Column.between age (PInt 20) (PInt 30))
  /\ Expr.sql (Column.between age (PInt 20) (PInt 30))
     = Ok "age BETWEEN 20 AND 30"
  /\ Column.__getitem__ age (PSlice PNone (PInt 30) PNone)
     = Raise (ValueError "BETWEEN range must have both a start and end-point.")
  /\ Column.__getitem__ age (PInt 10) = Ok (Column._expr OPER.EQ false age (PInt 10))
  /\ Expr.sql (Column._expr OPER.EQ false age (PInt 10)) = Ok "age = 10"
  /\ Column.__getitem__ name_ (PColumn "Int" (PStr "b"))
     = Ok (Column._expr OPER.EQ true name_ (PColumn "Int" (PStr "b")))
  /\ Expr.sql (Column._expr OPER.EQ true name_ (PColumn "Int" (PStr "b")))
     = Ok "b = name"
  /\ Column.__getitem__ age (PColumn "Column" (PStr "b"))
     = Ok (Column._expr OPER.EQ false age (PColumn "Column" (PStr "b")))
  /\ Expr.sql (Column._expr OPER.EQ false age (PColumn "Column" (PStr "b")))
     = Ok "age = b".
Proof.
  assert (H20 : PInt 20 <> PNone) by discriminate.
  assert (H30 : PInt 30 <> PNone) by discriminate.
  assert (H10 : PInt 10 <> PNone) by discriminate.
  assert (Hb1 : PColumn "Int" (PStr "b") <> PNone) by discriminate.
  assert (Hb2 : PColumn "Column" (PStr "b") <> PNone) by discriminate.
  pose proof (getitem_slice_is_between age (PInt 20) (PInt 30) PNone (PInt 10))
    as (Hfull & _ & Hitem).
  pose proof (getitem_slice_is_between age PNone (PInt 30) PNone (PInt 10))
    as (_ & Hopen & _).
  pose proof (getitem_slice_is_between name_ PNone PNone PNone
                (PColumn "Int" (PStr "b"))) as (_ & _ & Hsub).
  pose proof (getitem_slice_is_between age PNone PNone PNone
                (PColumn "Column" (PStr "b"))) as (_ & _ & Hsup).
  destruct (Hfull H20 H30) as [H1 H2].
  destruct (Hitem eq_refl H10) as [H3 H4].
  pose proof (Hopen (or_introl eq_refl)) as H5.
  destruct (Hsub eq_refl Hb1) as [H6 H7].
  destruct (Hsup eq_refl Hb2) as [H8 H9].
  repeat split; assumption.
Defined.

(** C9, on the code: compiling [name.in_(10)] raises [ValueError], not a
    type-mismatch error. *)
Lemma membership_error_is_value_error :
  Expr.sql (Column.in_ name_ (PInt 10))
  = Raise (ValueError "The value of the operator 10 should be an Iterable object")
  /\ ~ (exists msg, Expr.sql (Column.in_ name_ (PInt 10)) = Raise (TypeError msg)).
Proof.
  split; [reflexivity|]. intros [msg H]. discriminate H.
Qed.

(** C9 as the code has it: for [in_], [nin] and [exists], compiling the
    expression replaces an iterable right-hand side by the single tuple of
    its items, which is shown in the text after the operator (no parameter
    is bound); with a right-hand side that is not iterable compiling raises
    [ValueError], an invalid-value error. *)
Theorem membership_rhs_becomes_tuple (c : Column.t) (op : string) (v : pyval) :
  In op [OPER.IN; OPER.NOT_IN; OPER.EXISTS] ->
  (forall items,
      iter_items (Expr.name_or_self v) = Some items ->
      Expr.__sql__ (Column._expr op false c v)
      = Ok (py_str (Column.name c) ++ " " ++ op ++ " " ++ py_str (PTuple items),
            Expr.mk (Column.name c) op (PTuple items) false false))
  /\ (iter_items (Expr.name_or_self v) = None ->
      Expr.sql (Column._expr op false c v)
      = Raise (ValueError ("The value of the operator "
                           ++ py_str (Expr.name_or_self v)
                           ++ " should be an Iterable object"))).
Proof.
  intros Hop.
  assert (Hm : Expr.is_membership op = true).
  { cbn in Hop. destruct Hop as [<- | [<- | [<- | []]]]; reflexivity. }
  split.
  - intros items Hit.
    now rewrite (sql_membership_iterable _ items).
  - intros Hit. unfold Expr.sql.
    now rewrite sql_membership_not_iterable.
Qed.

Lemma membership_rhs_becomes_tuple_witness :
  In OPER.IN [OPER.IN; OPER.NOT_IN; OPER.EXISTS]
  /\ Expr.__sql__ (Column.in_ name_ (PList [PStr "at7h"; PStr "mejor"]))
     = Ok ("name IN ('at7h', 'mejor')",
           Expr.mk (PStr "name") OPER.IN
                   (PTuple [PStr "at7h"; PStr "mejor"]) false false)
  /\ Expr.sql (Column.in_ name_ (PInt 10))
     = Raise (ValueError "The value of the operator 10 should be an Iterable object").
Proof.
  assert (Hin : In OPER.IN [OPER.IN; OPER.NOT_IN; OPER.EXISTS])
    by (left; reflexivity).
  split; [exact Hin|split].
  - exact (proj1 (membership_rhs_becomes_tuple name_ OPER.IN
                    (PList [PStr "at7h"; PStr "mejor"]) Hin)
                 [PStr "at7h"; PStr "mejor"] eq_refl).
  - exact (proj2 (membership_rhs_becomes_tuple name_ OPER.IN (PInt 10) Hin)
                 eq_refl).
Defined.

End ExprFacts.

(* ================================================================== *)
(** * Properties of the field classes *)
(* ================================================================== *)

Section FieldFacts.

(** What a constructor call does, by the type of its [null] argument. *)
Lemma FieldBase_init_bool (k : Field.klass) (name default comment : pyval)
      (b : bool) (w : World) :
  Field.FieldBase__init__ k name (PBool b) default comment w
  = (Ok (Field.mk k name b default comment (field_counter w + 1)
                  None None None None),
     mkWorld (field_counter w + 1) (attr_key_num w) (warned w)).
Proof. reflexivity. Qed.

Lemma FieldBase_init_not_bool (k : Field.klass)
      (name null default comment : pyval) (w : World) :
  is_bool null = false ->
  Field.FieldBase__init__ k name null default comment w
  = (Raise (ValueError ("Unexpected `null` type: " ++ py_str null)), w).
Proof.
  intros H. destruct null; try discriminate H; reflexivity.
Qed.

(** A constructor that returns has taken the next number of the field
    counter and has left the key counter alone. *)
Lemma construct_ok (k : Field.klass) (a : Field.args) (w w' : World)
      (f : Field.t) :
  Field.construct k a w = (Ok f, w') ->
  Field.seq_num f = field_counter w + 1
  /\ field_counter w' = field_counter w + 1
  /\ attr_key_num w' = attr_key_num w.
Proof.
  destruct (is_bool (Field.a_null a)) eqn:Hb.
  - destruct (Field.a_null a) as [|b| | | | | |] eqn:Hn; try discriminate Hb.
    destruct k; unfold Field.construct, Field.Tinyint__init__,
      Field.Int__init__, Field.Text__init__, Field.Tinyint__init__, bindM;
      rewrite Hn, FieldBase_init_bool; cbn;
      try (destruct (is_True (Field.a_primary_key a)); destruct b; cbn);
      intros H; injection H as <- <-; cbn; auto.
  - destruct k; unfold Field.construct, Field.Tinyint__init__,
      Field.Int__init__, Field.Text__init__, Field.Tinyint__init__, bindM;
      rewrite FieldBase_init_not_bool by assumption; discriminate.
Qed.

(** A constructor that raises has changed nothing. *)
Lemma construct_raise (k : Field.klass) (a : Field.args) (w w' : World)
      (e : exn) :
  Field.construct k a w = (Raise e, w') -> w' = w.
Proof.
  destruct (is_bool (Field.a_null a)) eqn:Hb.
  - destruct (Field.a_null a) as [|b| | | | | |] eqn:Hn; try discriminate Hb.
    destruct k; unfold Field.construct, Field.Tinyint__init__,
      Field.Int__init__, Field.Text__init__, Field.Tinyint__init__, bindM;
      rewrite Hn, FieldBase_init_bool; cbn;
      try (destruct (is_True (Field.a_primary_key a)); destruct b; cbn);
      discriminate.
  - destruct k; unfold Field.construct, Field.Tinyint__init__,
      Field.Int__init__, Field.Text__init__, Field.Tinyint__init__, bindM;
      rewrite FieldBase_init_not_bool by assumption;
      intros H; now injection H.
Qed.

(** None of [type], [stmt] and [allow_null] is a method either. *)
Lemma read_names_not_defined :
  existsb (String.eqb "type") Field.other_names = false
  /\ existsb (String.eqb "stmt") Field.other_names = false
  /\ existsb (String.eqb "allow_null") Field.other_names = false.
Proof. repeat split. Qed.

(** C2, on the code: [sql()] reads [self.type], and no class defines
    [type] (the properties are [_type], [_stmt] and [_allow_null]): on
    every field object and in every state [sql()] raises [AttributeError]
    and returns no text; the [_stmt] property raises in the same way on
    its read of [self.allow_null] or of an unset slot. *)
Theorem field_sql_raises (f : Field.t) (w : World) :
  Field.sql f w = (Raise (Field.no_attribute f "type"), w)
  /\ exists a, Field._stmt f w = (Raise (Field.no_attribute f a), w).
Proof.
  split; [reflexivity|].
  unfold Field._stmt.
  destruct (Field.cls f) eqn:Hc;
    try (exists "allow_null"; reflexivity).
  unfold Field.Text_stmt, bindM, lift.
  destruct (Field.encoding f) as [enc|] eqn:He.
  - exists "allow_null".
    replace (Field.getattr0 f "encoding") with (Ok enc)
      by (unfold Field.getattr0, Field.slot; cbn; now rewrite He).
    reflexivity.
  - exists "encoding".
    replace (Field.getattr0 f "encoding")
      with (@Raise pyval (Field.no_attribute f "encoding"))
      by (unfold Field.getattr0, Field.slot; cbn; now rewrite He).
    reflexivity.
Qed.

(** C2 at [Tinyint(4, name='ty').sql()]: the object is constructed, its
    type clause is [tinyint(4)], and [sql()] raises. *)
Lemma tinyint_sql_raises :
  (let! f := Field.construct Field.Tinyint ty_args in Field.sql f) initial_world
  = (Raise (AttributeError "'Tinyint' object has no attribute 'type'"),
     mkWorld 1 0 [])
  /\ (let! f := Field.construct Field.Tinyint ty_args in lift (Field._type f))
       initial_world
     = (Ok "tinyint(4)", mkWorld 1 0 []).
Proof. split; reflexivity. Qed.

(** C3, on the code: [Int(11, primary_key=True, default=1, name='int')]
    raises nothing; the constructor returns a field. *)
Lemma primary_key_with_default_constructs :
  (exists f w, Field.construct Field.Int int_pk_args initial_world = (Ok f, w))
  /\ ~ (exists e w,
          Field.construct Field.Int int_pk_args initial_world = (Raise e, w)).
Proof.
  split.
  - eexists. eexists. reflexivity.
  - intros (e & w & H). discriminate H.
Qed.

(** C3 as the code has it: constructing an [Int] or a [Bigint] with
    [primary_key=True] never raises on account of the default: the
    constructor returns a field whose [null] is [False] and whose
    [default] is [None], whatever default was passed, after a warning when
    null was requested. *)
Theorem primary_key_forces_no_default (k : Field.klass) (a : Field.args)
        (b : bool) (w : World) :
  k = Field.Int \/ k = Field.Bigint ->
  Field.a_primary_key a = PBool true ->
  Field.a_null a = PBool b ->
  Field.construct k a w
  = (Ok (Field.mk k (Field.a_name a) false PNone (Field.a_comment a)
                  (field_counter w + 1)
                  (Some (Field.a_unsigned a)) (Some (Field.a_length a))
                  (Some (PBool true)) None),
     mkWorld (field_counter w + 1) (attr_key_num w)
             (if b
              then List.app (warned w)
                            ["Primary_key is not allow null, use default"]
              else warned w)).
Proof.
  intros Hk Hpk Hn.
  destruct Hk as [-> | ->];
    unfold Field.construct, Field.Int__init__, Field.Tinyint__init__, bindM;
    rewrite Hpk, Hn, FieldBase_init_bool; cbn; destruct b; reflexivity.
Qed.

Lemma primary_key_forces_no_default_witness :
  Field.a_primary_key int_pk_args = PBool true
  /\ Field.a_null int_pk_args = PBool true
  /\ Field.construct Field.Int int_pk_args initial_world
     = (Ok (Field.mk Field.Int (PStr "int") false PNone (PStr "") 1
                     (Some (PBool false)) (Some (PInt 11))
                     (Some (PBool true)) None),
        mkWorld 1 0 ["Primary_key is not allow null, use default"]).
Proof.
  split; [reflexivity|split; [reflexivity|]].
  exact (primary_key_forces_no_default Field.Int int_pk_args true
           initial_world (or_introl eq_refl) eq_refl eq_refl).
Defined.

(** C10: whatever the class, a constructor call whose [null] argument is
    not a boolean raises [ValueError] from the check that opens
    [FieldBase.__init__]: no object is returned, and the counters and the
    warnings are as they were before the call. *)
Theorem null_must_be_bool (k : Field.klass) (a : Field.args) (w : World) :
  is_bool (Field.a_null a) = false ->
  Field.construct k a w
  = (Raise (ValueError ("Unexpected `null` type: " ++ py_str (Field.a_null a))),
     w).
Proof.
  intros Hb.
  destruct k; unfold Field.construct, Field.Tinyint__init__,
    Field.Int__init__, Field.Text__init__, Field.Tinyint__init__, bindM;
    now rewrite FieldBase_init_not_bool.
Qed.

Lemma null_must_be_bool_witness :
  is_bool (Field.a_null text_null0_args) = false
  /\ Field.construct Field.Text text_null0_args initial_world
     = (Raise (ValueError "Unexpected `null` type: 0"), initial_world).
Proof.
  split; [reflexivity|].
  exact (null_must_be_bool Field.Text text_null0_args initial_world eq_refl).
Defined.

End FieldFacts.

(* ================================================================== *)
(** * Properties of key declarations and of declaration order *)
(* ================================================================== *)

Section DeclarationFacts.

(** C4, on the code: [Key(['c1', 'c2'], name='name').build()] gives
    [KEY `name` (`c1`,`c2`) COMMENT ''], with a COMMENT clause for the
    empty comment, no space after the comma and no terminator; this is not
    the line the claim describes. *)
Lemma key_empty_comment_still_rendered :
  Index.build key_c1_c2 = Ok "KEY `name` (`c1`,`c2`) COMMENT ''"
  /\ spec_key_line "KEY" "name" ["c1"; "c2"] "" = "KEY `name` (`c1`, `c2`);"
  /\ Index.build key_c1_c2 <> Ok (spec_key_line "KEY" "name" ["c1"; "c2"] "").
Proof.
  repeat split. intros H. discriminate H.
Qed.

Lemma backquoted_columns (cols : list string) :
  map py_str
      (map (fun c => PStr ("`" ++ py_str c ++ "`")) (map PStr cols))
  = map (fun c => "`" ++ c ++ "`") cols.
Proof.
  induction cols as [|c cols IH]; [reflexivity|].
  cbn [map]. rewrite IH. reflexivity.
Qed.

Lemma key_template (n c m : pyval) :
  format "KEY `{key_name}` ({cols}) COMMENT '{comment}'"
         [("key_name", n); ("cols", c); ("comment", m)]
  = Ok ("KEY `" ++ py_str n ++ "` (" ++ py_str c ++ ") COMMENT '"
        ++ py_str m ++ "'").
Proof.
  cbn. rewrite ?append_assoc. reflexivity.
Qed.

Lemma unique_key_template (n c m : pyval) :
  format "UNIQUE KEY `{key_name}` ({cols}) COMMENT '{comment}'"
         [("key_name", n); ("cols", c); ("comment", m)]
  = Ok ("UNIQUE " ++ "KEY `" ++ py_str n ++ "` (" ++ py_str c
        ++ ") COMMENT '" ++ py_str m ++ "'").
Proof.
  cbn. rewrite ?append_assoc. reflexivity.
Qed.

(** C4 as the code has it: a key declaration over the columns [c1, c2, ...]
    renders as [KEY `name` (`c1`,`c2`) COMMENT 'text']: the columns
    back-quoted and joined by a comma with no space, the COMMENT clause
    always there (with the empty text for an empty comment), and no
    terminator; a single column given without a list renders as a list of
    one; the unique-key variant renders the same text after [UNIQUE ]. *)
Theorem key_build_text (caller_text name comment : string)
        (cols : list string) (col : string) :
  let line := fun columns =>
    "KEY `" ++ name ++ "` ("
    ++ join "," (map (fun c => "`" ++ c ++ "`") columns)
    ++ ") COMMENT '" ++ comment ++ "'" in
  Index.build (Index.__init__ Index.Key caller_text (PList (map PStr cols))
                              (PStr comment) (PStr name))
  = Ok (line cols)
  /\ Index.build (Index.__init__ Index.UniqueKey caller_text
                                 (PList (map PStr cols))
                                 (PStr comment) (PStr name))
     = Ok ("UNIQUE " ++ line cols)
  /\ Index.build (Index.__init__ Index.Key caller_text (PStr col)
                                 (PStr comment) (PStr name))
     = Ok (line [col]).
Proof.
  cbv zeta.
  unfold Index.build, Index.__init__.
  cbn [Index.cls Index.options Index._type_sql_tpl is_None].
  rewrite !key_template, !unique_key_template.
  change (py_str (PStr name)) with name.
  change (py_str (PStr comment)) with comment.
  rewrite backquoted_columns.
  repeat split.
Qed.

Lemma declare_key_pure (k : Index.klass) (text : string)
      (column comment name : pyval) (w : World) :
  declare (DeclKey k text column comment name) w
  = (Ok (AKey (Index.__init__ k text column comment name)), w).
Proof. reflexivity. Qed.

(** One declaration: a constructed field holds the next number of the
    field counter; a key, or a constructor that raises, moves nothing. *)
Lemma declare_step (d : decl) (w w' : World) (r : result declared) :
  declare d w = (r, w') ->
  attr_key_num w' = attr_key_num w
  /\ match r with
     | Ok (AField f) =>
         Field.seq_num f = field_counter w + 1
         /\ field_counter w' = field_counter w + 1
     | _ => field_counter w' = field_counter w
     end.
Proof.
  destruct d as [k a | k text column comment name].
  - unfold declare, bindM.
    destruct (Field.construct k a w) as [[f|e] w1] eqn:Hc; cbn;
      intros H; injection H as <- <-.
    + destruct (construct_ok _ _ _ _ _ Hc) as (H1 & H2 & H3). auto.
    + apply construct_raise in Hc. subst w1. auto.
  - rewrite declare_key_pure. intros H. injection H as <- <-. auto.
Qed.

Lemma field_seq_nums_bounds (ds : list decl) :
  forall (w w' : World) (rs : list (result declared)),
    declare_all ds w = (rs, w') ->
    StronglySorted Z.lt (field_seq_nums rs)
    /\ Forall (fun n => field_counter w < n <= field_counter w')
              (field_seq_nums rs)
    /\ field_counter w' = field_counter w
                          + Z.of_nat (List.length (field_seq_nums rs))
    /\ attr_key_num w' = attr_key_num w.
Proof.
  induction ds as [|d ds IH]; intros w w' rs Hrun.
  - cbn in Hrun. injection Hrun as <- <-. cbn.
    repeat split; try constructor; lia.
  - cbn in Hrun.
    destruct (declare d w) as [r w1] eqn:Hd.
    destruct (declare_all ds w1) as [rs1 w2] eqn:Hrest.
    injection Hrun as <- <-.
    destruct (declare_step _ _ _ _ Hd) as [Hk Hf].
    destruct (IH _ _ _ Hrest) as (Hsorted & Hbounds & Hcount & Hkeys).
    assert (Hmono : field_counter w <= field_counter w1).
    { destruct r as [[f|k]|e]; lia. }
    assert (Hweak : Forall (fun n => field_counter w < n <= field_counter w2)
                           (field_seq_nums rs1)).
    { eapply Forall_impl; [|exact Hbounds]. cbn. intros n Hn. lia. }
    destruct r as [[f|k]|e]; cbn [field_seq_nums].
    + destruct Hf as [Hseq Hnext].
      repeat split.
      * constructor; [exact Hsorted|].
        eapply Forall_impl; [|exact Hbounds]. cbn. intros n Hn. lia.
      * constructor; [|exact Hweak].
        rewrite Hcount. lia.
      * cbn [List.length]. lia.
      * congruence.
    + repeat split; [exact Hsorted|exact Hweak|lia|congruence].
    + repeat split; [exact Hsorted|exact Hweak|lia|congruence].
Qed.

(** C5, on the code: a field declared first and a key declared next,
    from a fresh process: the key's construction advances no counter, and
    the number the key then draws from its own counter is [1], the
    sequence number the field already holds. *)
Lemma field_and_key_share_number :
  exists (f : Field.t) (k : Index.t) (w : World),
    declare_all [DeclField Field.Tinyint ty_args;
                 DeclKey Index.Key "" (PList [PStr "c1"; PStr "c2"])
                         (PStr "") (PStr "name")] initial_world
    = ([Ok (AField f); Ok (AKey k)], w)
    /\ field_counter w = 1
    /\ attr_key_num w = 0
    /\ Field.seq_num f = 1
    /\ fst (Index._attr_key k w) = Ok (Field.seq_num f).
Proof.
  do 3 eexists. repeat split.
Qed.

(** C5 as the code has it: the field classes and the key classes keep
    two separate counters.  Every field constructed takes the next value
    of the field counter, so in any sequence of declarations, with keys
    interleaved at will, the fields constructed hold strictly increasing
    sequence numbers in declaration order, each above the counter's
    value at the start, and the counter ends advanced by exactly the
    number of fields constructed.  No declaration moves the key counter:
    a key takes no number at construction, and the key counter advances
    by one on each read of a key's [_attr_key], which leaves the field
    counter alone. *)
Theorem field_sequence_numbers_increase (ds : list decl) (w : World)
        (k : Index.t) :
  StronglySorted Z.lt (field_seq_nums (fst (declare_all ds w)))
  /\ Forall (fun n => field_counter w < n
                      <= field_counter (snd (declare_all ds w)))
            (field_seq_nums (fst (declare_all ds w)))
  /\ field_counter (snd (declare_all ds w))
     = field_counter w
       + Z.of_nat (List.length (field_seq_nums (fst (declare_all ds w))))
  /\ attr_key_num (snd (declare_all ds w)) = attr_key_num w
  /\ Index._attr_key k w
     = (Ok (attr_key_num w + 1),
        mkWorld (field_counter w) (attr_key_num w + 1) (warned w)).
Proof.
  destruct (declare_all ds w) as [rs w'] eqn:Hrun. cbn [fst snd].
  destruct (field_seq_nums_bounds _ _ _ _ Hrun) as (H1 & H2 & H3 & H4).
  repeat split; assumption.
Qed.

End DeclarationFacts.

(* ================================================================== *)
(** * Further properties of expressions *)
(* ================================================================== *)

Section MoreExprFacts.

(** The text of a logic expression over two texts. *)
Lemma logic_expr_sql (sa sb op : string) :
  Expr.is_membership op = false ->
  Expr.__sql__ (Expr.mk (PStr sa) op (PStr sb) false true)
  = Ok ("(" ++ sa ++ ") " ++ op ++ " (" ++ sb ++ ")",
        Expr.mk (PStr sa) op (PStr sb) false true).
Proof.
  intros Hop. rewrite sql_not_membership by exact Hop.
  f_equal. f_equal. cbn. now rewrite !append_assoc.
Qed.

Lemma sql_raise_inv (e : Expr.t) (x : exn) :
  Expr.sql e = Raise x -> Expr.__sql__ e = Raise x.
Proof.
  unfold Expr.sql. destruct (Expr.__sql__ e) as [r|y]; cbn; [discriminate|].
  intros H. now injection H as ->.
Qed.

(** Compiling an expression a second time gives the text of the first
    time: the object the first call leaves behind renders as before and is
    changed no further. *)
Theorem compile_twice_same_text (e e' : Expr.t) (s : string) :
  Expr.__sql__ e = Ok (s, e') ->
  Expr.__sql__ e' = Ok (s, e') /\ Expr.sql e' = Expr.sql e.
Proof.
  intros H. pose proof (sql_again _ _ _ H) as H'.
  split; [exact H'|].
  unfold Expr.sql. now rewrite H, H'.
Qed.

Lemma compile_twice_same_text_witness :
  Expr.__sql__ (Column.in_ name_ (PList [PInt 1; PInt 2]))
  = Ok ("name IN (1, 2)",
        Expr.mk (PStr "name") OPER.IN (PTuple [PInt 1; PInt 2]) false false)
  /\ Expr.__sql__ (Expr.mk (PStr "name") OPER.IN (PTuple [PInt 1; PInt 2])
                           false false)
     = Ok ("name IN (1, 2)",
           Expr.mk (PStr "name") OPER.IN (PTuple [PInt 1; PInt 2]) false false).
Proof.
  split; [reflexivity|].
  exact (proj1 (compile_twice_same_text
                  (Column.in_ name_ (PList [PInt 1; PInt 2]))
                  (Expr.mk (PStr "name") OPER.IN (PTuple [PInt 1; PInt 2])
                           false false)
                  "name IN (1, 2)" eq_refl)).
Defined.

(** Compiling fails in one case only: a membership operator whose
    right-hand side is not iterable; every other expression renders. *)
Theorem compile_fails_only_on_membership (e : Expr.t) :
  (exists x, Expr.sql e = Raise x)
  <-> (Expr.is_membership (Expr.op e) = true
       /\ iter_items (Expr.rhs e) = None).
Proof.
  split.
  - intros [x Hx]. apply sql_raise_inv in Hx.
    destruct (Expr.is_membership (Expr.op e)) eqn:Hop.
    + destruct (iter_items (Expr.rhs e)) as [items|] eqn:Hit; [|auto].
      rewrite (sql_membership_iterable e items Hop Hit) in Hx. discriminate Hx.
    + rewrite sql_not_membership in Hx by exact Hop. discriminate Hx.
  - intros [Hop Hit]. eexists. unfold Expr.sql.
    rewrite sql_membership_not_iterable by assumption. reflexivity.
Qed.

Lemma compile_fails_only_on_membership_witness :
  Expr.is_membership (Expr.op (Column.exists_ name_ (PInt 3))) = true
  /\ iter_items (Expr.rhs (Column.exists_ name_ (PInt 3))) = None
  /\ exists x, Expr.sql (Column.exists_ name_ (PInt 3)) = Raise x.
Proof.
  split; [reflexivity|split; [reflexivity|]].
  exact (proj2 (compile_fails_only_on_membership
                  (Column.exists_ name_ (PInt 3)))
               (conj eq_refl eq_refl)).
Defined.

(** Compiling changes nothing of an expression but the right-hand side of
    a membership expression, which becomes the tuple of the items it held. *)
Theorem compile_touches_membership_rhs_only (e e' : Expr.t) (s : string) :
  Expr.__sql__ e = Ok (s, e') ->
  Expr.lhs e' = Expr.lhs e /\ Expr.op e' = Expr.op e
  /\ Expr.flat e' = Expr.flat e /\ Expr.logic e' = Expr.logic e
  /\ (Expr.is_membership (Expr.op e) = false -> e' = e)
  /\ (Expr.is_membership (Expr.op e) = true ->
      exists items, iter_items (Expr.rhs e) = Some items
                    /\ Expr.rhs e' = PTuple items).
Proof.
  intros H.
  destruct (Expr.is_membership (Expr.op e)) eqn:Hop.
  - destruct (iter_items (Expr.rhs e)) as [items|] eqn:Hit.
    + rewrite (sql_membership_iterable e items Hop Hit) in H.
      injection H as _ <-. cbn. repeat split; try discriminate.
      intros _. now exists items.
    + rewrite sql_membership_not_iterable in H by assumption. discriminate H.
  - rewrite sql_not_membership in H by exact Hop.
    injection H as _ <-. repeat split; try discriminate; auto.
Qed.

Lemma compile_touches_membership_rhs_only_witness :
  Expr.__sql__ (Column.nin name_ (PStr "ab"))
  = Ok ("name NOT IN ('a', 'b')",
        Expr.mk (PStr "name") OPER.NOT_IN (PTuple [PStr "a"; PStr "b"])
                false false)
  /\ Expr.lhs (Expr.mk (PStr "name") OPER.NOT_IN (PTuple [PStr "a"; PStr "b"])
                       false false)
     = Expr.lhs (Column.nin name_ (PStr "ab")).
Proof.
  split; [reflexivity|].
  exact (proj1 (compile_touches_membership_rhs_only
                  (Column.nin name_ (PStr "ab"))
                  (Expr.mk (PStr "name") OPER.NOT_IN
                           (PTuple [PStr "a"; PStr "b"]) false false)
                  "name NOT IN ('a', 'b')" eq_refl)).
Defined.

(** [a & b] and [a | b] return an expression exactly when both [a] and
    [b] render; otherwise they raise what the first operand that fails to
    render raises, the left one being rendered first. *)
Theorem logical_renders_operands_in_order (a b : Expr.t) :
  ((exists c, Expr.__and__ a (Expr.AnExpr b) = Ok c)
   <-> (exists sa sb, Expr.sql a = Ok sa /\ Expr.sql b = Ok sb))
  /\ ((exists c, Expr.__or__ a (Expr.AnExpr b) = Ok c)
      <-> (exists sa sb, Expr.sql a = Ok sa /\ Expr.sql b = Ok sb))
  /\ (forall x, Expr.sql a = Raise x ->
                Expr.__and__ a (Expr.AnExpr b) = Raise x
                /\ Expr.__or__ a (Expr.AnExpr b) = Raise x)
  /\ (forall sa y, Expr.sql a = Ok sa -> Expr.sql b = Raise y ->
                   Expr.__and__ a (Expr.AnExpr b) = Raise y
                   /\ Expr.__or__ a (Expr.AnExpr b) = Raise y).
Proof.
  unfold Expr.__and__, Expr.__or__, Expr.sql.
  destruct (Expr.__sql__ a) as [[sa a']|x]; cbn;
    destruct (Expr.__sql__ b) as [[sb b']|y]; cbn;
    (split; [|split; [|split]]);
    try (split; [intros [c H]; try discriminate H; now exists sa, sb
                |intros (ta & tb & H1 & H2); try discriminate H1;
                 try discriminate H2; eexists; reflexivity]);
    try (intros z H; try discriminate H; injection H as <-; now split);
    try (intros ta z H1 H2; try discriminate H1; try discriminate H2;
         injection H2 as <-; now split).
Qed.

(** What [&] or [|] returns is a logic expression and always renders, so
    compositions can be nested at will. *)
Theorem logical_result_renders (a c : Expr.t) (x : Expr.arg) :
  Expr.__and__ a x = Ok c \/ Expr.__or__ a x = Ok c ->
  Expr.logic c = true /\ exists s, Expr.sql c = Ok s.
Proof.
  unfold Expr.__and__, Expr.__or__.
  destruct x as [b|v]; [|intros [H|H]; discriminate H].
  destruct (Expr.__sql__ a) as [[sa a']|ea]; cbn;
    [|intros [H|H]; discriminate H].
  destruct (Expr.__sql__ b) as [[sb b']|eb]; cbn;
    [|intros [H|H]; discriminate H].
  intros [H|H]; injection H as <-; (split; [reflexivity|]);
    eexists; unfold Expr.sql, Expr.__init__; cbn [Expr.name_or_self];
    rewrite logic_expr_sql by reflexivity; reflexivity.
Qed.

Lemma logical_result_renders_witness :
  Expr.__and__ (Column.__gt__ age (PInt 10))
               (Expr.AnExpr (Column.in_ name_ (PStr "ab")))
  = Ok (Expr.mk (PStr "age > 10") OPER.AND (PStr "name IN ('a', 'b')")
                false true)
  /\ exists s,
       Expr.sql (Expr.mk (PStr "age > 10") OPER.AND
                         (PStr "name IN ('a', 'b')") false true) = Ok s.
Proof.
  split; [reflexivity|].
  exact (proj2 (logical_result_renders
                  (Column.__gt__ age (PInt 10))
                  (Expr.mk (PStr "age > 10") OPER.AND
                           (PStr "name IN ('a', 'b')") false true)
                  (Expr.AnExpr (Column.in_ name_ (PStr "ab")))
                  (or_introl eq_refl))).
Defined.

(** Nesting: for [a], [b], [c] that render as [sa], [sb], [sc], the
    expression [(a & b) | c] renders as [((sa) AND (sb)) OR (sc)]: every
    level puts its own pair around each of its two operands. *)
Theorem nested_logical_text (a b c : Expr.t) (sa sb sc : string) :
  Expr.sql a = Ok sa -> Expr.sql b = Ok sb -> Expr.sql c = Ok sc ->
  exists ab e,
    Expr.__and__ a (Expr.AnExpr b) = Ok ab
    /\ Expr.__or__ ab (Expr.AnExpr c) = Ok e
    /\ Expr.sql e
       = Ok ("((" ++ sa ++ ") AND (" ++ sb ++ ")) OR (" ++ sc ++ ")").
Proof.
  intros Ha Hb Hc.
  destruct (sql_text_inv _ _ Ha) as [a' Ha'].
  destruct (sql_text_inv _ _ Hb) as [b' Hb'].
  destruct (sql_text_inv _ _ Hc) as [c' Hc'].
  exists (Expr.mk (PStr sa) OPER.AND (PStr sb) false true).
  exists (Expr.mk (PStr ("(" ++ sa ++ ") AND (" ++ sb ++ ")")) OPER.OR
                  (PStr sc) false true).
  split; [|split].
  - unfold Expr.__and__. now rewrite Ha', Hb'.
  - unfold Expr.__or__.
    rewrite (logic_expr_sql sa sb OPER.AND eq_refl), Hc'. reflexivity.
  - unfold Expr.sql.
    rewrite (logic_expr_sql _ sc OPER.OR eq_refl). cbn.
    repeat (rewrite append_assoc; cbn). reflexivity.
Qed.

Lemma nested_logical_text_witness :
  Expr.sql (Column.__ge__ age (PInt 20)) = Ok "age >= 20"
  /\ Expr.sql (Column.in_ name_ (PList [PStr "at7h"; PStr "mejor"]))
     = Ok "name IN ('at7h', 'mejor')"
  /\ Expr.sql (Column.startswith phone (PInt 153)) = Ok "phone ILIKE 153%"
  /\ exists ab e,
       Expr.__and__ (Column.__ge__ age (PInt 20))
         (Expr.AnExpr (Column.in_ name_ (PList [PStr "at7h"; PStr "mejor"])))
       = Ok ab
       /\ Expr.__or__ ab (Expr.AnExpr (Column.startswith phone (PInt 153)))
          = Ok e
       /\ Expr.sql e
          = Ok "((age >= 20) AND (name IN ('at7h', 'mejor'))) OR (phone ILIKE 153%)".
Proof.
  split; [reflexivity|split; [reflexivity|split; [reflexivity|]]].
  exact (nested_logical_text
           (Column.__ge__ age (PInt 20))
           (Column.in_ name_ (PList [PStr "at7h"; PStr "mejor"]))
           (Column.startswith phone (PInt 153))
           "age >= 20" "name IN ('at7h', 'mejor')" "phone ILIKE 153%"
           eq_refl eq_refl eq_refl).
Defined.

Lemma logical_renders_operands_in_order_witness :
  Expr.sql (Column.in_ name_ (PInt 3))
  = Raise (ValueError "The value of the operator 3 should be an Iterable object")
  /\ Expr.sql (Column.__gt__ age (PInt 10)) = Ok "age > 10"
  /\ Expr.__and__ (Column.in_ name_ (PInt 3))
                  (Expr.AnExpr (Column.__gt__ age (PInt 10)))
     = Raise (ValueError "The value of the operator 3 should be an Iterable object")
  /\ Expr.__or__ (Column.__gt__ age (PInt 10))
                 (Expr.AnExpr (Column.in_ name_ (PInt 3)))
     = Raise (ValueError "The value of the operator 3 should be an Iterable object").
Proof.
  split; [reflexivity|split; [reflexivity|split]].
  - exact (proj1 (proj1 (proj2 (proj2
             (logical_renders_operands_in_order
                (Column.in_ name_ (PInt 3)) (Column.__gt__ age (PInt 10)))))
             _ eq_refl)).
  - exact (proj2 (proj2 (proj2 (proj2
             (logical_renders_operands_in_order
                (Column.__gt__ age (PInt 10)) (Column.in_ name_ (PInt 3)))))
             "age > 10" _ eq_refl eq_refl)).
Defined.

(** The null tests agree: [is_null(flag)] is [self == None] for a true
    flag and [self != None] otherwise, item access with [None] is
    [is_null()], and the texts are [<name> IS None] and
    [<name> IS NOT None]. *)
Theorem null_tests_agree (c : Column.t) (flag : pyval) :
  Column.is_null c flag
  = (if truthy flag then Column.__eq__ c PNone else Column.__ne__ c PNone)
  /\ Column.__getitem__ c PNone = Ok (Column.is_null c (PBool true))
  /\ Expr.sql (Column.is_null c flag)
     = Ok (py_str (Column.name c)
           ++ (if truthy flag then " IS None" else " IS NOT None")).
Proof.
  unfold Column.is_null, Column.__eq__, Column.__ne__, Column.__getitem__.
  destruct (truthy flag); repeat split.
Qed.

(** The pattern helpers differ by the wildcards only: [contains(v)] is
    [startswith] of [%v] and [endswith] of [v%]; all three use the token
    [ILIKE] and put the wrapped text of the value after it. *)
Theorem pattern_helpers_wrap (c : Column.t) (v : pyval) :
  Column.contains c v = Column.startswith c (PStr ("%" ++ py_str v))
  /\ Column.contains c v = Column.endswith c (PStr (py_str v ++ "%"))
  /\ Expr.sql (Column.contains c v)
     = Ok (py_str (Column.name c) ++ " ILIKE %" ++ py_str v ++ "%")
  /\ Expr.sql (Column.startswith c v)
     = Ok (py_str (Column.name c) ++ " ILIKE " ++ py_str v ++ "%")
  /\ Expr.sql (Column.endswith c v)
     = Ok (py_str (Column.name c) ++ " ILIKE %" ++ py_str v).
Proof.
  repeat split.
Qed.

(** A column given as operand of an operator is shown by its name, but a
    column given as a bound of [between] is shown by its [repr],
    [<Class: name>]: the bounds are formatted before the expression is
    built. *)
Theorem between_shows_column_repr (c d : Column.t) (hig : pyval) :
  Expr.sql (Column.between c (Column.val d) hig)
  = Ok (py_str (Column.name c) ++ " BETWEEN " ++ Column.__repr__ d
        ++ " AND " ++ py_str hig)
  /\ Expr.sql (Column.__gt__ c (Column.val d))
     = Ok (py_str (Column.name c) ++ " > " ++ py_str (Column.name d)).
Proof.
  split.
  - unfold Expr.sql, Column.between. rewrite sql_not_membership by reflexivity.
    cbn. now rewrite !append_assoc.
  - reflexivity.
Qed.

(** A membership test against a column never fails when the name of that
    column is a string: the operand is replaced by the name, and the name
    is iterated character by character. *)
Theorem membership_iterates_column_name (c : Column.t) (cls s : string) :
  let chars := map (fun ch => PStr (String ch "")) (list_ascii_of_string s) in
  Expr.sql (Column.in_ c (PColumn cls (PStr s)))
  = Ok (py_str (Column.name c) ++ " IN " ++ py_str (PTuple chars))
  /\ Expr.sql (Column.nin c (PColumn cls (PStr s)))
     = Ok (py_str (Column.name c) ++ " NOT IN " ++ py_str (PTuple chars))
  /\ Expr.sql (Column.exists_ c (PColumn cls (PStr s)))
     = Ok (py_str (Column.name c) ++ " EXISTS " ++ py_str (PTuple chars)).
Proof.
  cbv zeta. unfold Expr.sql.
  repeat split;
    match goal with
    | |- context [Expr.__sql__ ?e] =>
        rewrite (sql_membership_iterable e _ eq_refl eq_refl)
    end; reflexivity.
Qed.

End MoreExprFacts.

(* ================================================================== *)
(** * Further properties of the field constructors *)
(* ================================================================== *)

Section MoreFieldFacts.

Lemma null_not_bool_raises (k : Field.klass) (a : Field.args) (w : World) :
  is_bool (Field.a_null a) = false ->
  Field.construct k a w
  = (Raise (ValueError ("Unexpected `null` type: " ++ py_str (Field.a_null a))),
     w).
Proof.
  intros Hb.
  destruct k; unfold Field.construct, Field.Int__init__,
    Field.Tinyint__init__, Field.Text__init__, bindM;
    now rewrite FieldBase_init_not_bool.
Qed.

(** What a constructor call returns when [null] is a boolean, class by
    class. *)
Lemma construct_shape (k : Field.klass) (a : Field.args) (b : bool)
      (w : World) :
  Field.a_null a = PBool b ->
  let pk := match k with
            | Field.Int | Field.Bigint => is_True (Field.a_primary_key a)
            | _ => false
            end in
  let integer := match k with
                 | Field.Tinyint | Field.Smallint | Field.Int | Field.Bigint =>
                     true
                 | _ => false
                 end in
  Field.construct k a w
  = (Ok (Field.mk k (Field.a_name a)
           (if pk then false else b)
           (match k with
            | Field.Text => PNone
            | _ => if pk then PNone else Field.a_default a
            end)
           (Field.a_comment a)
           (field_counter w + 1)
           (if integer then Some (Field.a_unsigned a) else None)
           (if integer then Some (Field.a_length a) else None)
           (match k with
            | Field.Int | Field.Bigint => Some (Field.a_primary_key a)
            | _ => None
            end)
           (match k with
            | Field.Text => Some (Field.a_encoding a)
            | _ => None
            end)),
     mkWorld (field_counter w + 1) (attr_key_num w)
             (if pk && b
              then List.app (warned w)
                            ["Primary_key is not allow null, use default"]
              else warned w)).
Proof.
  intros Hn. cbv zeta.
  destruct k;
    unfold Field.construct, Field.Int__init__, Field.Tinyint__init__,
      Field.Text__init__, bindM;
    rewrite Hn, FieldBase_init_bool; cbn;
    try (destruct (is_True (Field.a_primary_key a)); destruct b; cbn);
    reflexivity.
Qed.

(** A constructor returns a field exactly when its [null] argument is a
    boolean, and the field then carries the class, the name and the
    comment of the call and the next number of the counter. *)
Theorem constructor_returns_iff_null_bool (k : Field.klass) (a : Field.args)
        (w : World) :
  ((exists f w', Field.construct k a w = (Ok f, w'))
   <-> is_bool (Field.a_null a) = true)
  /\ (forall f w', Field.construct k a w = (Ok f, w') ->
        Field.cls f = k /\ Field.name f = Field.a_name a
        /\ Field.comment f = Field.a_comment a
        /\ Field.seq_num f = field_counter w + 1).
Proof.
  destruct (Field.a_null a) as [|b| | | | | |] eqn:Hn;
    try (split;
         [split; [intros (f & w' & H);
                  rewrite null_not_bool_raises in H
                    by (rewrite Hn; reflexivity);
                  discriminate H
                 |discriminate]
         |intros f w' H;
          rewrite null_not_bool_raises in H by (rewrite Hn; reflexivity);
          discriminate H]).
  pose proof (construct_shape k a b w Hn) as Hs. cbv zeta in Hs.
  split.
  - split; [reflexivity|]. intros _. rewrite Hs. eauto.
  - intros f w' H. rewrite Hs in H. injection H as <- <-. cbn. auto.
Qed.

Lemma constructor_returns_iff_null_bool_witness :
  Field.construct Field.Bigint big_args initial_world
  = (Ok (Field.mk Field.Bigint (PStr "big") false (PInt 0) (PStr "") 1
                  (Some (PBool true)) (Some (PInt 20))
                  (Some (PBool false)) None),
     mkWorld 1 0 [])
  /\ Field.seq_num
       (Field.mk Field.Bigint (PStr "big") false (PInt 0) (PStr "") 1
                 (Some (PBool true)) (Some (PInt 20))
                 (Some (PBool false)) None)
     = field_counter initial_world + 1.
Proof.
  split; [reflexivity|].
  exact (proj2 (proj2 (proj2
           (proj2 (constructor_returns_iff_null_bool
                     Field.Bigint big_args initial_world)
                  _ _ eq_refl)))).
Defined.

(** A constructor warns in one case only, an [Int] or [Bigint] declared
    as primary key while null is allowed; in every other call, failed ones
    included, it emits nothing. *)
Theorem constructor_warns_only_for_nullable_primary_key
        (k : Field.klass) (a : Field.args) (w w' : World)
        (r : result Field.t) :
  Field.construct k a w = (r, w') ->
  (warned w' = warned w
   /\ ~ ((k = Field.Int \/ k = Field.Bigint)
         /\ Field.a_primary_key a = PBool true
         /\ Field.a_null a = PBool true))
  \/ (warned w'
      = List.app (warned w) ["Primary_key is not allow null, use default"]
      /\ (k = Field.Int \/ k = Field.Bigint)
      /\ Field.a_primary_key a = PBool true
      /\ Field.a_null a = PBool true).
Proof.
  intros H.
  destruct (Field.a_null a) as [|b| | | | | |] eqn:Hn;
    try (rewrite null_not_bool_raises in H by (rewrite Hn; reflexivity);
         injection H as _ <-; left; split; [reflexivity|];
         intros (_ & _ & Hc); discriminate Hc).
  pose proof (construct_shape k a b w Hn) as Hs. cbv zeta in Hs.
  rewrite Hs in H. injection H as _ <-. cbn [warned].
  destruct k; cbn [andb];
    try (left; split; [reflexivity|];
         intros ([Hk|Hk] & _ & _); discriminate Hk).
  - destruct (Field.a_primary_key a) as [|[|]| | | | | |] eqn:Hpk; cbn;
      try (left; split; [reflexivity|]; intros (_ & Hc & _); discriminate Hc).
    destruct b; cbn.
    + right. auto.
    + left. split; [reflexivity|]. intros (_ & _ & Hc). discriminate Hc.
  - destruct (Field.a_primary_key a) as [|[|]| | | | | |] eqn:Hpk; cbn;
      try (left; split; [reflexivity|]; intros (_ & Hc & _); discriminate Hc).
    destruct b; cbn.
    + right. auto.
    + left. split; [reflexivity|]. intros (_ & _ & Hc). discriminate Hc.
Qed.

Lemma constructor_warns_only_for_nullable_primary_key_witness :
  Field.construct Field.Bigint big_args initial_world
  = (Ok (Field.mk Field.Bigint (PStr "big") false (PInt 0) (PStr "") 1
                  (Some (PBool true)) (Some (PInt 20))
                  (Some (PBool false)) None),
     mkWorld 1 0 [])
  /\ (warned (mkWorld 1 0 []) = warned initial_world
      /\ ~ ((Field.Bigint = Field.Int \/ Field.Bigint = Field.Bigint)
            /\ Field.a_primary_key big_args = PBool true
            /\ Field.a_null big_args = PBool true)
      \/ warned (mkWorld 1 0 [])
         = List.app (warned initial_world)
                    ["Primary_key is not allow null, use default"]
         /\ (Field.Bigint = Field.Int \/ Field.Bigint = Field.Bigint)
         /\ Field.a_primary_key big_args = PBool true
         /\ Field.a_null big_args = PBool true).
Proof.
  split; [reflexivity|].
  exact (constructor_warns_only_for_nullable_primary_key
           Field.Bigint big_args initial_world _ _ eq_refl).
Defined.

(** What a constructed field keeps of [null] and [default]: a text field
    never holds a default; an [Int] or [Bigint] declared as primary key
    holds [null=False] and no default; every other field holds the two as
    they were passed. *)
Theorem constructor_keeps_null_and_default (k : Field.klass) (a : Field.args)
        (w w' : World) (f : Field.t) :
  Field.construct k a w = (Ok f, w') ->
  match k with
  | Field.Text =>
      Field.default f = PNone /\ PBool (Field.null f) = Field.a_null a
  | Field.Int | Field.Bigint =>
      if is_True (Field.a_primary_key a)
      then Field.default f = PNone /\ Field.null f = false
      else Field.default f = Field.a_default a
           /\ PBool (Field.null f) = Field.a_null a
  | _ =>
      Field.default f = Field.a_default a
      /\ PBool (Field.null f) = Field.a_null a
  end.
Proof.
  intros H.
  destruct (Field.a_null a) as [|b| | | | | |] eqn:Hn;
    try (rewrite null_not_bool_raises in H by (rewrite Hn; reflexivity);
         discriminate H).
  pose proof (construct_shape k a b w Hn) as Hs. cbv zeta in Hs.
  rewrite Hs in H. injection H as <- _.
  destruct k; cbn; try (split; reflexivity);
    destruct (is_True (Field.a_primary_key a)); cbn; split; reflexivity.
Qed.

Lemma constructor_keeps_null_and_default_witness :
  Field.construct Field.Text text_args (mkWorld 7 2 [])
  = (Ok (Field.mk Field.Text (PStr "text") true PNone (PStr "") 8
                  None None None (Some (PStr "utf8mb4"))),
     mkWorld 8 2 [])
  /\ Field.default (Field.mk Field.Text (PStr "text") true PNone (PStr "") 8
                             None None None (Some (PStr "utf8mb4"))) = PNone.
Proof.
  split; [reflexivity|].
  exact (proj1 (constructor_keeps_null_and_default
                  Field.Text text_args (mkWorld 7 2 []) _ _ eq_refl)).
Defined.

(** The type clause of a constructed field: [<type>(<length>)] for the
    integer classes, followed by [ unsigned] exactly when [unsigned] is the
    object [True]; [text] for a text field; [FieldBase] itself has none
    and raises [NotImplementedError]. *)
Theorem type_clause_of_constructed_field (k : Field.klass) (a : Field.args)
        (w w' : World) (f : Field.t) :
  Field.construct k a w = (Ok f, w') ->
  Field._type f
  = match k with
    | Field.FieldBase => Raise NotImplementedError
    | Field.Text => Ok "text"
    | _ =>
        let base := py_str (Field._db_type k) ++ "("
                    ++ py_str (Field.a_length a) ++ ")" in
        if is_True (Field.a_unsigned a) then Ok (base ++ " unsigned")
        else Ok base
    end.
Proof.
  intros H.
  destruct (Field.a_null a) as [|b| | | | | |] eqn:Hn;
    try (rewrite null_not_bool_raises in H by (rewrite Hn; reflexivity);
         discriminate H).
  pose proof (construct_shape k a b w Hn) as Hs. cbv zeta in Hs.
  rewrite Hs in H. injection H as <- _.
  destruct k; try reflexivity;
    unfold Field._type; cbn;
    destruct (is_True (Field.a_unsigned a)); reflexivity.
Qed.

Lemma type_clause_of_constructed_field_witness :
  Field.construct Field.Bigint big_args initial_world
  = (Ok (Field.mk Field.Bigint (PStr "big") false (PInt 0) (PStr "") 1
                  (Some (PBool true)) (Some (PInt 20))
                  (Some (PBool false)) None),
     mkWorld 1 0 [])
  /\ Field._type (Field.mk Field.Bigint (PStr "big") false (PInt 0) (PStr "") 1
                           (Some (PBool true)) (Some (PInt 20))
                           (Some (PBool false)) None)
     = Ok "bigint(20) unsigned".
Proof.
  split; [reflexivity|].
  exact (type_clause_of_constructed_field
           Field.Bigint big_args initial_world _ _ eq_refl).
Defined.

(** Which attributes a constructed field has depends on its class:
    [length] and [unsigned] exist on the integer classes only,
    [primary_key] on [Int] and [Bigint] only, [encoding] on [Text] only;
    reading one that the class does not have raises [AttributeError]. *)
Theorem attributes_by_class (k : Field.klass) (a : Field.args)
        (w w' : World) (f : Field.t) :
  Field.construct k a w = (Ok f, w') ->
  let integer := match k with
                 | Field.Tinyint | Field.Smallint | Field.Int | Field.Bigint =>
                     true
                 | _ => false
                 end in
  Field.getattr0 f "length"
  = (if integer then Ok (Field.a_length a)
     else Raise (Field.no_attribute f "length"))
  /\ Field.getattr0 f "unsigned"
     = (if integer then Ok (Field.a_unsigned a)
        else Raise (Field.no_attribute f "unsigned"))
  /\ Field.getattr0 f "primary_key"
     = match k with
       | Field.Int | Field.Bigint => Ok (Field.a_primary_key a)
       | _ => Raise (Field.no_attribute f "primary_key")
       end
  /\ Field.getattr0 f "encoding"
     = match k with
       | Field.Text => Ok (Field.a_encoding a)
       | _ => Raise (Field.no_attribute f "encoding")
       end.
Proof.
  intros H.
  destruct (Field.a_null a) as [|b| | | | | |] eqn:Hn;
    try (rewrite null_not_bool_raises in H by (rewrite Hn; reflexivity);
         discriminate H).
  pose proof (construct_shape k a b w Hn) as Hs. cbv zeta in Hs.
  rewrite Hs in H. injection H as <- _.
  destruct k; repeat split.
Qed.

Lemma attributes_by_class_witness :
  Field.construct Field.Text text_args (mkWorld 7 2 [])
  = (Ok (Field.mk Field.Text (PStr "text") true PNone (PStr "") 8
                  None None None (Some (PStr "utf8mb4"))),
     mkWorld 8 2 [])
  /\ Field.getattr0 (Field.mk Field.Text (PStr "text") true PNone (PStr "") 8
                              None None None (Some (PStr "utf8mb4"))) "length"
     = Raise (AttributeError "'Text' object has no attribute 'length'").
Proof.
  split; [reflexivity|].
  exact (proj1 (attributes_by_class
                  Field.Text text_args (mkWorld 7 2 []) _ _ eq_refl)).
Defined.

End MoreFieldFacts.

(* ================================================================== *)
(** * Further properties of key declarations *)
(* ================================================================== *)

Section MoreIndexFacts.

Lemma contains_char_cons (ch c : ascii) (s : string) :
  contains_char ch (String c s) = (Ascii.eqb ch c || contains_char ch s)%bool.
Proof. reflexivity. Qed.

Lemma find_eq_cons (c : ascii) (s : string) :
  Index.find_eq (String c s)
  = if Ascii.eqb c "=" then 0
    else if Index.find_eq s <? 0 then -1 else Index.find_eq s + 1.
Proof. reflexivity. Qed.

(** [find] answers [-1] for a text without ['=']. *)
Lemma find_eq_absent (s : string) :
  contains_char "=" s = false -> Index.find_eq s = -1.
Proof.
  induction s as [|c s IH]; [reflexivity|].
  rewrite contains_char_cons, find_eq_cons.
  intros H. apply orb_false_elim in H. destruct H as [Hc Hs].
  rewrite Ascii.eqb_sym, Hc, (IH Hs). reflexivity.
Qed.

(** [find] answers the position of the first ['=']. *)
Lemma find_eq_first (target rest : string) :
  contains_char "=" target = false ->
  Index.find_eq (target ++ String "=" rest)
  = Z.of_nat (String.length target).
Proof.
  induction target as [|c target IH]; intros H.
  - reflexivity.
  - rewrite contains_char_cons in H. apply orb_false_elim in H.
    destruct H as [Hc Hs].
    change (String c target ++ String "=" rest)
      with (String c (target ++ String "=" rest)).
    rewrite find_eq_cons, Ascii.eqb_sym, Hc, (IH Hs).
    cbn [String.length].
    destruct (Z.of_nat (String.length target) <? 0) eqn:Hneg; lia.
Qed.

Lemma take_prefix (target rest : string) :
  Index.take (String.length target) (target ++ rest) = target.
Proof.
  induction target as [|c target IH]; cbn.
  - now destruct rest.
  - now rewrite IH.
Qed.

(** A key declared without a name takes the text before the first ['=']
    of the calling source line, stripped of surrounding white space: the
    target of the assignment the declaration stands in. *)
Theorem key_name_from_assignment_target (k : Index.klass)
        (target rest : string) (column comment : pyval) :
  contains_char "=" target = false ->
  Index.name (Index.__init__ k (target ++ "=" ++ rest) column comment PNone)
  = PStr (Index.strip target).
Proof.
  intros H. unfold Index.__init__. cbn [Index.name is_None].
  change (target ++ "=" ++ rest) with (target ++ String "=" rest).
  rewrite (find_eq_first target rest H).
  unfold Index.slice_to.
  destruct (Z.of_nat (String.length target) <? 0) eqn:Hneg;
    [apply Z.ltb_lt in Hneg; lia|].
  now rewrite Nat2Z.id, take_prefix.
Qed.

Lemma key_name_from_assignment_target_witness :
  contains_char "=" "idx_name " = false
  /\ Index.name (Index.__init__ Index.Key
                   ("idx_name " ++ "=" ++ " Key(['name', 'age'])")
                   (PList [PStr "name"; PStr "age"]) (PStr "") PNone)
     = PStr "idx_name".
Proof.
  split; [reflexivity|].
  exact (key_name_from_assignment_target Index.Key "idx_name "
           " Key(['name', 'age'])" (PList [PStr "name"; PStr "age"])
           (PStr "") eq_refl).
Defined.

(** When the calling source line holds no ['='], [find] answers [-1] and
    the name becomes the line without its last character, stripped: a key
    declared outside an assignment is named after the call itself, cut by
    one character. *)
Theorem key_name_without_assignment (k : Index.klass) (text : string)
        (column comment : pyval) :
  contains_char "=" text = false ->
  Index.name (Index.__init__ k text column comment PNone)
  = PStr (Index.strip (without_last text)).
Proof.
  intros H. unfold Index.__init__. cbn [Index.name is_None].
  rewrite (find_eq_absent text H).
  unfold Index.slice_to, without_last. cbn [Z.ltb Z.compare].
  do 2 f_equal. f_equal. lia.
Qed.

Lemma key_name_without_assignment_witness :
  contains_char "=" "Key('name')" = false
  /\ Index.name (Index.__init__ Index.Key "Key('name')" (PStr "name")
                                (PStr "") PNone)
     = PStr "Key('name'".
Proof.
  split; [reflexivity|].
  exact (key_name_without_assignment Index.Key "Key('name')" (PStr "name")
           (PStr "") eq_refl).
Defined.

(** [build()] never fails on a [Key] or a [UniqueKey], whatever name,
    columns and comment it was declared with, and the unique line is the
    plain line after [UNIQUE ]; on a [BaseIndex] it always raises
    [AttributeError], the class having no template, while [str()] works
    for the three classes. *)
Theorem build_total_on_key_classes (text : string)
        (column comment name : pyval) :
  (exists line,
      Index.build (Index.__init__ Index.Key text column comment name) = Ok line
      /\ Index.build (Index.__init__ Index.UniqueKey text column comment name)
         = Ok ("UNIQUE " ++ line))
  /\ Index.build (Index.__init__ Index.BaseIndex text column comment name)
     = Raise (AttributeError "'NoneType' object has no attribute 'format'")
  /\ Index.__str__ (Index.__init__ Index.BaseIndex text column comment name)
     = "<BaseIndex ("
       ++ py_str (Index.name
                    (Index.__init__ Index.BaseIndex text column comment name))
       ++ ": " ++ py_str comment ++ ")>".
Proof.
  split; [|split; reflexivity].
  unfold Index.build, Index.__init__.
  cbn [Index.cls Index.options Index._type_sql_tpl].
  rewrite key_template, unique_key_template.
  eexists. split; reflexivity.
Qed.

Lemma column_objects_backquoted (cs : list Column.t) :
  map py_str
      (map (fun c => PStr ("`" ++ py_str c ++ "`")) (map Column.val cs))
  = map (fun c => "`" ++ Column.__repr__ c ++ "`") cs.
Proof.
  induction cs as [|c cs IH]; [reflexivity|].
  cbn [map]. rewrite IH. reflexivity.
Qed.

(** A column object given as a covered column is not reduced to its name:
    the key line shows its [repr], [<Class: name>], between the
    back-quotes. *)
Theorem key_shows_column_repr (text name comment : string)
        (cs : list Column.t) :
  Index.build (Index.__init__ Index.Key text (PList (map Column.val cs))
                              (PStr comment) (PStr name))
  = Ok ("KEY `" ++ name ++ "` ("
        ++ join "," (map (fun c => "`" ++ Column.__repr__ c ++ "`") cs)
        ++ ") COMMENT '" ++ comment ++ "'").
Proof.
  unfold Index.build, Index.__init__.
  cbn [Index.cls Index.options Index._type_sql_tpl is_None].
  rewrite key_template.
  change (py_str (PStr name)) with name.
  change (py_str (PStr comment)) with comment.
  rewrite column_objects_backquoted. reflexivity.
Qed.

(** Reading [_attr_key] is not repeatable: each read advances the key
    counter, so two reads on the same key give two consecutive numbers,
    and neither touches the field counter or the warnings. *)
Theorem attr_key_advances_on_each_read (key : Index.t) (w : World) :
  read_attr_key_twice key w
  = (Ok (attr_key_num w + 1, attr_key_num w + 2),
     mkWorld (field_counter w) (attr_key_num w + 2) (warned w))
  /\ forall first second w',
       read_attr_key_twice key w = (Ok (first, second), w') ->
       second = first + 1 /\ second <> first
       /\ field_counter w' = field_counter w.
Proof.
  assert (H : read_attr_key_twice key w
              = (Ok (attr_key_num w + 1, attr_key_num w + 2),
                 mkWorld (field_counter w) (attr_key_num w + 2) (warned w))).
  { unfold read_attr_key_twice, bindM, Index._attr_key, ret.
    cbn [attr_key_num field_counter warned].
    now replace (attr_key_num w + 1 + 1) with (attr_key_num w + 2) by lia. }
  split; [exact H|].
  intros first second w' H'. rewrite H in H'.
  injection H' as <- <- <-. cbn. repeat split; lia.
Qed.

Lemma attr_key_advances_on_each_read_witness :
  read_attr_key_twice key_c1_c2 initial_world
  = (Ok (1, 2), mkWorld 0 2 [])
  /\ 2 = 1 + 1 /\ 2 <> 1
  /\ field_counter (mkWorld 0 2 []) = field_counter initial_world.
Proof.
  split; [reflexivity|].
  exact (proj2 (attr_key_advances_on_each_read key_c1_c2 initial_world)
               1 2 (mkWorld 0 2 []) eq_refl).
Defined.

End MoreIndexFacts.
